(** * Sector Performance Dashboard (display.py): data pipeline and callbacks

    A shallow embedding of [display.py].  A pandas DataFrame is a list of
    row records, in index order.  A cell that pandas reports as missing
    (NaN, None or NaT) is [None]; numeric cells are rationals.  A Python
    [dict] is an association list in insertion order.  The effectful
    functions (file system, WRDS warehouse, yfinance lookups, stdout) run
    in the monad [IO], which threads a [world] and records every external
    interaction in a chronological trace; a raised exception keeps the
    world reached so far, as in Python. *)

From Stdlib Require Import List String ZArith QArith Bool Arith Lia Permutation Sorted.
Import ListNotations.
Close Scope Q_scope.
Open Scope string_scope.
Open Scope list_scope.

(** ** Constants *)

Definition CSV_FILE : string := "sector_data.csv".

Definition SECTOR_TICKERS : list (string * list string) :=
  [ ("Technology", ["AAPL"; "MSFT"; "GOOG"; "NVDA"; "AMD"; "ORCL"; "CRM"; "ADBE"; "INTC"; "HPQ"]);
    ("Healthcare", ["JNJ"; "PFE"; "MRK"; "LLY"; "ABT"; "TMO"; "BMY"; "AMGN"; "CVS"; "GILD"]);
    ("Energy", ["XOM"; "CVX"; "BP"; "TOT"; "COP"; "ENB"; "EOG"; "KMI"; "SLB"; "OXY"]);
    ("Finance", ["JPM"; "BAC"; "C"; "WFC"; "GS"; "MS"; "SCHW"; "AXP"; "USB"; "TD"]);
    ("Consumer Discretionary", ["TSLA"; "AMZN"; "HD"; "MCD"; "NKE"; "SBUX"; "DIS"; "BKNG"; "LOW"; "TGT"]);
    ("Consumer Staples", ["PG"; "KO"; "PEP"; "WMT"; "COST"; "MDLZ"; "CL"; "KHC"; "KR"; "TAP"]);
    ("Industrials", ["MMM"; "HON"; "GE"; "BA"; "CAT"; "RTX"; "LMT"; "DE"; "UPS"; "FDX"]);
    ("Utilities", ["NEE"; "DUK"; "SO"; "AEP"; "EXC"; "SRE"; "D"; "PEG"; "ED"; "XEL"]);
    ("Real Estate", ["AMT"; "PLD"; "CCI"; "EQIX"; "SPG"; "PSA"; "O"; "WELL"; "VTR"; "HST"]);
    ("Materials", ["LIN"; "APD"; "SHW"; "ECL"; "NUE"; "DOW"; "DD"; "FCX"; "ALB"; "CE"]) ].

(** ** Cells, rows and frames *)

Definition ticker_cell := option string.
Definition date_cell := option Z.        (* days since 1970-01-01; None is NaT *)
Definition num_cell := option Q.

(** The frame produced by [get_or_download_data]. *)
Record raw_row := mk_raw {
  permno : option Z;
  date : date_cell;
  stock_price : num_cell;
  shrout : num_cell;
  volume : num_cell;
  ticker : ticker_cell
}.

(** The frame after [data["market_cap"] = ...]. *)
Record cap_row := mk_cap {
  obs : raw_row;
  market_cap : num_cell
}.

(** The frame after the merge with the beta table. *)
Record row := mk_row {
  pre : cap_row;
  beta : num_cell
}.

Definition row_ticker (r : row) : ticker_cell := ticker (obs (pre r)).
Definition row_date (r : row) : date_cell := date (obs (pre r)).
Definition row_stock_price (r : row) : num_cell := stock_price (obs (pre r)).
Definition row_shrout (r : row) : num_cell := shrout (obs (pre r)).
Definition row_volume (r : row) : num_cell := volume (obs (pre r)).
Definition row_market_cap (r : row) : num_cell := market_cap (pre r).

Definition ticker_eq_dec (a b : ticker_cell) : {a = b} + {a <> b}.
Proof. decide equality. apply string_dec. Defined.

Definition date_eq_dec (a b : date_cell) : {a = b} + {a <> b}.
Proof. decide equality. apply Z.eq_dec. Defined.

Definition key := (ticker_cell * date_cell)%type.

Definition key_eq_dec (a b : key) : {a = b} + {a <> b}.
Proof. decide equality; [apply date_eq_dec | apply ticker_eq_dec]. Defined.

Definition raw_key (r : raw_row) : key := (ticker r, date r).
Definition cap_key (r : cap_row) : key := raw_key (obs r).
Definition row_key (r : row) : key := cap_key (pre r).

Definition notnull {A} (c : option A) : bool :=
  match c with Some _ => true | None => false end.

(** Element-wise product of two numeric columns: a missing operand gives a
    missing result.  The product of two present cells is taken exactly; the
    rounding and overflow of float64 columns and the wrap-around of int64
    columns are outside this model, and no property below depends on the
    value of a product. *)
Definition cell_mul (a b : num_cell) : num_cell :=
  match a, b with
  | Some x, Some y => Some (x * y)%Q
  | _, _ => None
  end.

(** ** pandas operations *)

Section Frames.
Context {R K : Type}.
Variable K_eq_dec : forall a b : K, {a = b} + {a <> b}.
Variable key_of : R -> K.

Definition mem (k : K) (seen : list K) : bool :=
  if in_dec K_eq_dec k seen then true else false.

(** [drop_duplicates(subset=...)], keep="first": a row stays when no
    earlier row has its key; missing keys compare equal. *)
Fixpoint drop_duplicates_seen (seen : list K) (rows : list R) : list R :=
  match rows with
  | [] => []
  | r :: rest =>
      if mem (key_of r) seen then drop_duplicates_seen seen rest
      else r :: drop_duplicates_seen (key_of r :: seen) rest
  end.

Definition drop_duplicates (rows : list R) : list R :=
  drop_duplicates_seen [] rows.
End Frames.

(** [Series.unique()]: the distinct values in order of first appearance. *)
Definition unique (col : list ticker_cell) : list ticker_cell :=
  drop_duplicates ticker_eq_dec (fun t => t) col.

(** [dropna(subset=["stock_price", "shrout"])]. *)
Definition dropna (rows : list raw_row) : list raw_row :=
  filter (fun r => notnull (stock_price r) && notnull (shrout r)) rows.

(** [data["market_cap"] = data["stock_price"] * data["shrout"] * 1000]. *)
Definition with_market_cap (rows : list raw_row) : list cap_row :=
  map (fun r => mk_cap r (cell_mul (cell_mul (stock_price r) (shrout r)) (Some (1000 # 1)%Q)))
      rows.

(** The beta frame: one row per dict item, columns ticker and beta. *)
Definition beta_frame := list (ticker_cell * num_cell).

(** [pd.merge(left, right, on="ticker", how="left")]: every left row, in
    order, once per right row with the same ticker; a left row without a
    match is kept with a missing beta.  Missing keys match each other. *)
Definition merge_left (left : list cap_row) (right : beta_frame) : list row :=
  flat_map
    (fun l =>
       match filter (fun b => if ticker_eq_dec (fst b) (ticker (obs l)) then true else false) right with
       | [] => [mk_row l None]
       | matches => map (fun b => mk_row l (snd b)) matches
       end)
    left.

(** [d[k] = v] on an insertion-ordered dict: an existing key keeps its
    place and takes the new value, a new key goes last. *)
Fixpoint dict_set (d : beta_frame) (k : ticker_cell) (v : num_cell) : beta_frame :=
  match d with
  | [] => [(k, v)]
  | (k', v') :: rest =>
      if ticker_eq_dec k' k then (k, v) :: rest else (k', v') :: dict_set rest k v
  end.

(** ** The outside world *)

Inductive exn :=
| KeyError
| IndexError
| TypeError
| FileNotFoundError
| OSError                       (* data.to_csv could not write the file *)
| ConnectionError               (* wrds.Connection() could not log in *)
| DatabaseError                 (* conn.raw_sql or conn.close failed *)
| LookupFailure (msg : string). (* anything yfinance raises for one ticker *)

(** [str(e)]; only a failed lookup reaches the handler that prints it. *)
Definition exn_message (e : exn) : string :=
  match e with
  | LookupFailure msg => msg
  | KeyError => "KeyError"
  | IndexError => "single positional indexer is out-of-bounds"
  | TypeError => "unsupported format string passed to NoneType.__format__"
  | FileNotFoundError => "No such file or directory"
  | OSError => "OSError"
  | ConnectionError => "connection failed"
  | DatabaseError => "DatabaseError"
  end.

Inductive outcome (A : Type) :=
| Ok (a : A)
| Raise (e : exn).
Arguments Ok {A} a.
Arguments Raise {A} e.

(** The two SQL statements of [get_or_download_data], by their parameters. *)
Inductive sql :=
| SelectDsf (tickers : list string) (since : Z)
| SelectMsenames (tickers : list string).

Inductive event :=
| Print (msg : string)
| PathExists (path : string)
| ReadCsv (path : string)
| ToCsv (path : string)
| WrdsConnect
| WrdsRawSql (q : sql)
| WrdsClose
| YfInfo (t : ticker_cell).

(** The events that go over the network. *)
Definition is_network (e : event) : bool :=
  match e with
  | WrdsConnect | WrdsRawSql _ | WrdsClose | YfInfo _ => true
  | Print _ | PathExists _ | ReadCsv _ | ToCsv _ => false
  end.

Definition is_wrds (e : event) : bool :=
  match e with
  | WrdsConnect | WrdsRawSql _ | WrdsClose => true
  | _ => false
  end.

(** What one [yf.Ticker(t).info] lookup does: it raises an exception with
    some message, or it yields an info dict whose "beta" entry is a number,
    or is absent or null; [info.get("beta", None)] is then the Python
    object None. *)
Inductive yf_reply :=
| YfRaises (msg : string)
| YfInfoDict (beta_entry : num_cell).

(** How [data.to_csv(CSV_FILE)] ends: the file is written, or the write
    fails and leaves the file absent or with whatever reached the disk. *)
Inductive write_outcome :=
| Written
| WriteFails (left_behind : option (list raw_row)).

Record dsf_row := mk_dsf {
  dsf_permno : Z;
  dsf_date : Z;
  dsf_prc : num_cell;
  dsf_shrout : num_cell;
  dsf_vol : num_cell
}.

(** What one process run meets outside the program: whether the warehouse
    accepts the login, answers a query and closes the connection, the
    tables it holds, the beta service, and how a write of the cache file
    ends.  The answer of the beta service may depend on how many lookups
    the run has made before. *)
Record services := mk_services {
  wrds_login : bool;
  wrds_answers : sql -> bool;
  wrds_closes : bool;
  crsp_dsf : list dsf_row;
  crsp_msenames : list (Z * string);
  yf_service : nat -> ticker_cell -> yf_reply;
  csv_write : write_outcome
}.

(** The mutable part: the cache file (absent, or its parsed table), the
    number of beta lookups made, and the trace of interactions so far. *)
Record world := mk_world {
  csv_file : option (list raw_row);
  yf_calls : nat;
  trace : list event
}.

Definition IO (A : Type) : Type := services -> world -> outcome A * world.

Definition ret {A} (a : A) : IO A := fun _ w => (Ok a, w).

Definition bind {A B} (m : IO A) (f : A -> IO B) : IO B :=
  fun s w =>
    match m s w with
    | (Ok a, w') => f a s w'
    | (Raise e, w') => (Raise e, w')
    end.

(** [try: m except Exception as e: h e]. *)
Definition try_except {A} (m : IO A) (h : exn -> IO A) : IO A :=
  fun s w =>
    match m s w with
    | (Ok a, w') => (Ok a, w')
    | (Raise e, w') => h e s w'
    end.

Declare Scope io_scope.
Delimit Scope io_scope with io.
Notation "x <- m ;; k" := (bind m (fun x => k))
  (at level 61, m at next level, right associativity) : io_scope.
Notation "m ;; k" := (bind m (fun _ => k))
  (at level 61, right associativity) : io_scope.
Open Scope io_scope.

Definition log (e : event) (w : world) : world :=
  mk_world (csv_file w) (yf_calls w) (trace w ++ [e]).

Definition print (msg : string) : IO unit :=
  fun _ w => (Ok tt, log (Print msg) w).

Definition os_path_exists : IO bool :=
  fun _ w => (Ok (notnull (csv_file w)), log (PathExists CSV_FILE) w).

(** [pd.read_csv(CSV_FILE, parse_dates=["date"])]. *)
Definition read_csv : IO (list raw_row) :=
  fun _ w =>
    match csv_file w with
    | Some table => (Ok table, log (ReadCsv CSV_FILE) w)
    | None => (Raise FileNotFoundError, log (ReadCsv CSV_FILE) w)
    end.

(** [data.to_csv(CSV_FILE, index=False)]. *)
Definition to_csv (table : list raw_row) : IO unit :=
  fun s w =>
    match csv_write s with
    | Written =>
        (Ok tt, log (ToCsv CSV_FILE) (mk_world (Some table) (yf_calls w) (trace w)))
    | WriteFails left_behind =>
        (Raise OSError, log (ToCsv CSV_FILE) (mk_world left_behind (yf_calls w) (trace w)))
    end.

Definition wrds_Connection : IO unit :=
  fun s w =>
    if wrds_login s then (Ok tt, log WrdsConnect w)
    else (Raise ConnectionError, log WrdsConnect w).

Definition wrds_close : IO unit :=
  fun s w =>
    if wrds_closes s then (Ok tt, log WrdsClose w)
    else (Raise DatabaseError, log WrdsClose w).

Definition in_strings (x : string) (l : list string) : bool :=
  if in_dec string_dec x l then true else false.

(** [SELECT permno, ticker FROM crsp.msenames WHERE ticker IN (...)]. *)
Definition raw_sql_msenames (tickers : list string) : IO (list (Z * string)) :=
  fun s w =>
    if wrds_answers s (SelectMsenames tickers) then
      (Ok (filter (fun m => in_strings (snd m) tickers) (crsp_msenames s)),
       log (WrdsRawSql (SelectMsenames tickers)) w)
    else (Raise DatabaseError, log (WrdsRawSql (SelectMsenames tickers)) w).

(** [SELECT permno, date, prc AS stock_price, shrout, vol AS volume
     FROM crsp.dsf WHERE permno IN (SELECT permno FROM crsp.msenames
     WHERE ticker IN (...)) AND date >= since]. *)
Definition raw_sql_dsf (tickers : list string) (since : Z) : IO (list dsf_row) :=
  fun s w =>
    let permnos :=
      map fst (filter (fun m => in_strings (snd m) tickers) (crsp_msenames s)) in
    if wrds_answers s (SelectDsf tickers since) then
      (Ok (filter (fun r => (if in_dec Z.eq_dec (dsf_permno r) permnos then true else false)
                            && (since <=? dsf_date r)%Z)
                  (crsp_dsf s)),
       log (WrdsRawSql (SelectDsf tickers since)) w)
    else (Raise DatabaseError, log (WrdsRawSql (SelectDsf tickers since)) w).

(** [yf.Ticker(t).info]: one network lookup; the reply is the service's
    answer to this run's next lookup. *)
Definition yf_Ticker_info (t : ticker_cell) : IO num_cell :=
  fun s w =>
    let w' := mk_world (csv_file w) (S (yf_calls w)) (trace w ++ [YfInfo t]) in
    match yf_service s (yf_calls w) t with
    | YfRaises msg => (Raise (LookupFailure msg), w')
    | YfInfoDict b => (Ok b, w')
    end.

(** ** The pipeline *)

Definition show_ticker (t : ticker_cell) : string :=
  match t with Some s => s | None => "nan" end.

(** 2015-01-01 as a day number. *)
Definition since_2015 : Z := 16436.

(** [dict(zip(mapping["permno"], mapping["ticker"]))] followed by
    [.map(...)]: the last pair of a permno wins, an unmapped permno gives a
    missing ticker. *)
Fixpoint permno_lookup (mapping : list (Z * string)) (p : Z) : ticker_cell :=
  match mapping with
  | [] => None
  | (p', t) :: rest =>
      match permno_lookup rest p with
      | Some t' => Some t'
      | None => if Z.eq_dec p' p then Some t else None
      end
  end.

Definition get_or_download_data : IO (list raw_row) :=
  found <- os_path_exists ;;
  if found : bool then
    print ("Found existing data in " ++ CSV_FILE ++ ".") ;;
    read_csv
  else
    print "No data found. Fetching from WRDS..." ;;
    wrds_Connection ;;
    let tickers := flat_map snd SECTOR_TICKERS in
    data <- raw_sql_dsf tickers since_2015 ;;
    mapping <- raw_sql_msenames tickers ;;
    let data :=
      map (fun r => mk_raw (Some (dsf_permno r)) (Some (dsf_date r)) (dsf_prc r)
                           (dsf_shrout r) (dsf_vol r)
                           (permno_lookup mapping (dsf_permno r)))
          data in
    wrds_close ;;
    print ("Saving data to " ++ CSV_FILE ++ "...") ;;
    to_csv data ;;
    ret data.

Fixpoint fetch_betas_loop (tickers : list ticker_cell) (beta_values : beta_frame)
  : IO beta_frame :=
  match tickers with
  | [] => ret beta_values
  | t :: rest =>
      beta_values <-
        try_except
          (b <- yf_Ticker_info t ;;
           ret (dict_set beta_values t b))
          (fun e =>
             print ("Could not fetch beta for " ++ show_ticker t ++ ": " ++ exn_message e) ;;
             ret (dict_set beta_values t None)) ;;
      fetch_betas_loop rest beta_values
  end.

Definition fetch_betas (tickers : list ticker_cell) : IO beta_frame :=
  fetch_betas_loop tickers [].

Definition clean_data (data : list raw_row) : IO (list row) :=
  let data := drop_duplicates key_eq_dec raw_key data in
  let data := dropna data in
  let data := with_market_cap data in
  let tickers := unique (map (fun r => ticker (obs r)) data) in
  betas <- fetch_betas tickers ;;
  ret (merge_left data betas).

(** The module-level statements [data = get_or_download_data()] and
    [data = clean_data(data)]. *)
Definition load_and_clean : IO (list row) :=
  data <- get_or_download_data ;;
  clean_data data.

(** ** The Dash application *)

Record dropdown_option := mk_option {
  label : string;
  value : string
}.

Record dropdown := mk_dropdown {
  dd_id : string;
  dd_options : list dropdown_option;
  dd_value : option string;
  dd_multi : bool
}.

(** [list(SECTOR_TICKERS.keys())[0]]. *)
Definition first_sector : option string :=
  match map fst SECTOR_TICKERS with
  | [] => None
  | s :: _ => Some s
  end.

Definition sector_dropdown : dropdown :=
  mk_dropdown "sector-dropdown"
              (map (fun entry => mk_option (fst entry) (fst entry)) SECTOR_TICKERS)
              first_sector
              false.

Definition ticker_dropdown : dropdown :=
  mk_dropdown "ticker-dropdown" [] None true.

(** [SECTOR_TICKERS[sector]]; the dropdown hands the callback a sector name,
    or [None] once its selection is cleared. *)
Fixpoint dict_get (d : list (string * list string)) (k : string) : outcome (list string) :=
  match d with
  | [] => Raise KeyError
  | (k', v) :: rest => if string_dec k' k then Ok v else dict_get rest k
  end.

Definition sector_members (sector : option string) : outcome (list string) :=
  match sector with
  | Some s => dict_get SECTOR_TICKERS s
  | None => Raise KeyError
  end.

Definition update_ticker_dropdown (sector : option string) : outcome (list dropdown_option) :=
  match sector_members sector with
  | Ok tickers => Ok (map (fun t => mk_option t t) tickers)
  | Raise e => Raise e
  end.

(** Rendered components.  A number formatted into a text ([{x:,.2f}] or
    [{x:.2f}]) is kept as the number next to the fixed part of the text. *)
#[local] Unset Elimination Schemes.
Inductive html :=
| Div (children : list html)
| H4 (text : string)
| Ul (children : list html)
| Li (text : string) (shown : num_cell)
| Table (children : list html)
| Tr (children : list html)
| Th (text : string)
| Td (text : string)
| TdFmt (shown : num_cell).
#[local] Set Elimination Schemes.

Record line_trace := mk_trace {
  trace_name : string;
  trace_points : list (Z * num_cell);
  connectgaps : bool
}.

Inductive figure :=
| EmptyFigure                                           (* the dict [{}] *)
| LineFigure (title : string) (traces : list line_trace)
| BarFigure (title : string) (bars : list (string * num_cell)).

(** [Series.isin(values)]: a missing ticker is in no list of names. *)
Definition isin (values : list string) (c : ticker_cell) : bool :=
  match c with
  | Some t => in_strings t values
  | None => false
  end.

(** [Series == t]. *)
Definition ticker_is (t : string) (c : ticker_cell) : bool :=
  match c with
  | Some t' => if string_dec t' t then true else false
  | None => false
  end.

(** [Series.mean()], skipping missing values; no value at all gives NaN. *)
Definition present (col : list num_cell) : list Q :=
  flat_map (fun c => match c with Some q => [q] | None => [] end) col.

Definition mean (col : list num_cell) : num_cell :=
  match present col with
  | [] => None
  | qs => Some (fold_left Qplus qs 0 / inject_Z (Z.of_nat (List.length qs)))%Q
  end.

Section Sorting.
Context {A : Type}.
Variable leb : A -> A -> bool.

Fixpoint insert_sorted (x : A) (l : list A) : list A :=
  match l with
  | [] => [x]
  | y :: rest => if leb x y then x :: l else y :: insert_sorted x rest
  end.

Definition sort (l : list A) : list A := fold_right insert_sorted [] l.
End Sorting.

Definition group_key := (string * Z)%type.

Definition group_key_eq_dec (a b : group_key) : {a = b} + {a <> b}.
Proof. decide equality; [apply Z.eq_dec | apply string_dec]. Defined.

Definition group_key_leb (a b : group_key) : bool :=
  match String.compare (fst a) (fst b) with
  | Lt => true
  | Eq => (snd a <=? snd b)%Z
  | Gt => false
  end.

Record group_row := mk_group {
  g_ticker : string;
  g_date : Z;
  g_stock_price : num_cell;
  g_market_cap : num_cell
}.

Definition group_key_of (r : row) : list group_key :=
  match row_ticker r, row_date r with
  | Some t, Some d => [(t, d)]
  | _, _ => []
  end.

(** [groupby(["ticker", "date"]).agg({"stock_price": "mean", "market_cap":
    "mean"}).reset_index()]: one row per key present, keys sorted, rows
    with a missing key left out. *)
Definition groupby_ticker_date (rows : list row) : list group_row :=
  let keys := sort group_key_leb
                (drop_duplicates group_key_eq_dec (fun k => k) (flat_map group_key_of rows)) in
  map (fun k =>
         let members :=
           filter (fun r => if in_dec group_key_eq_dec k (group_key_of r) then true else false)
                  rows in
         mk_group (fst k) (snd k)
                  (mean (map row_stock_price members))
                  (mean (map row_market_cap members)))
      keys.

(** [px.line(frame, x="date", y="stock_price", color="ticker", title=...)]
    then [update_traces(connectgaps=False)]: one trace per ticker, in order
    of first appearance. *)
Definition px_line (frame : list group_row) (title : string) : figure :=
  let names := drop_duplicates string_dec (fun t => t) (map g_ticker frame) in
  LineFigure title
    (map (fun name =>
            mk_trace name
              (map (fun g => (g_date g, g_stock_price g))
                   (filter (fun g => if string_dec (g_ticker g) name then true else false) frame))
              false)
         names).

(** [px.bar(frame.groupby("ticker").mean().reset_index(), x="ticker",
    y="market_cap", title=...)]: one bar per ticker, tickers sorted. *)
Definition px_bar (frame : list group_row) (title : string) : figure :=
  let names := sort String.leb (drop_duplicates string_dec (fun t => t) (map g_ticker frame)) in
  BarFigure title
    (map (fun name =>
            (name,
             mean (map g_market_cap
                       (filter (fun g => if string_dec (g_ticker g) name then true else false)
                               frame))))
         names).

(** The cleaned table restricted to a sector: [data[data["ticker"].isin(
    sector_tickers)]]. *)
Definition sector_rows (members : list string) (data : list row) : list row :=
  filter (fun r => isin members (row_ticker r)) data.

Definition averages_component (sector_data : list row) : html :=
  Div [ H4 "Sector Averages";
        Ul [ Li "Average Market Cap: $" (mean (map row_market_cap sector_data));
             Li "Average Stock Price: $" (mean (map row_stock_price sector_data));
             Li "Average Beta: " (mean (map beta sector_data)) ] ].

(** The dtype of the beta column.  [fetch_betas] builds it from the list
    of dict values: when no lookup left a number the list holds only the
    object None and the column has dtype object, keeping None in every
    cell; with at least one number it is a float64 column and the missing
    betas are NaN.  The merge and the boolean selections keep the dtype. *)
Definition beta_column_is_object (data : list row) : bool :=
  forallb (fun r => negb (notnull (beta r))) data.

(** [f"{x:.2f}"]: NaN formats (as "nan"), the object None does not. *)
Definition format_2f (object_dtype : bool) (x : num_cell) : outcome num_cell :=
  match x with
  | Some q => Ok (Some q)
  | None => if object_dtype then Raise TypeError else Ok None
  end.

(** The table rows of the comprehension over [selected_tickers], ticker
    after ticker:
    [sector_data[sector_data["ticker"] == ticker]["beta"].iloc[0]] raises
    on an empty selection, and formatting its result raises on None. *)
Fixpoint beta_table_rows (object_dtype : bool) (sector_data : list row)
  (selected : list string) : outcome (list html) :=
  match selected with
  | [] => Ok []
  | t :: rest =>
      match filter (fun r => ticker_is t (row_ticker r)) sector_data with
      | [] => Raise IndexError
      | r :: _ =>
          match format_2f object_dtype (beta r) with
          | Raise e => Raise e
          | Ok shown =>
              match beta_table_rows object_dtype sector_data rest with
              | Ok trs => Ok (Tr [Td t; TdFmt shown] :: trs)
              | Raise e => Raise e
              end
          end
      end
  end.

Definition update_dashboard (data : list row) (sector : option string)
  (selected_tickers : option (list string)) : outcome (html * figure * figure) :=
  match sector_members sector with
  | Raise e => Raise e
  | Ok sector_tickers =>
      let sector_data := sector_rows sector_tickers data in
      let averages := averages_component sector_data in
      match selected_tickers with
      | None | Some [] => Ok (averages, EmptyFigure, EmptyFigure)
      | Some selected =>
          let selected_data :=
            groupby_ticker_date
              (filter (fun r => isin selected (row_ticker r)) sector_data) in
          let trend_fig := px_line selected_data "Stock Price Trends" in
          let comparison_fig := px_bar selected_data "Market Cap Comparison" in
          match beta_table_rows (beta_column_is_object data) sector_data selected with
          | Raise e => Raise e
          | Ok trs =>
              let beta_list :=
                Div [ H4 "Selected Ticker Betas";
                      Table (Tr [Th "Ticker"; Th "Beta"] :: trs) ] in
              Ok (Div [averages; beta_list], trend_fig, comparison_fig)
          end
      end
  end.

(** ** Definitions used to state the properties *)

(** The beta a lookup leaves in [beta_values]. *)
Definition beta_of_reply (r : yf_reply) : num_cell :=
  match r with
  | YfRaises _ => None
  | YfInfoDict b => b
  end.

(** The lookup raised, or its info dict has no beta. *)
Definition lookup_fails (r : yf_reply) : bool :=
  match r with
  | YfRaises _ | YfInfoDict None => true
  | YfInfoDict (Some _) => false
  end.

(** The dict after the loop of [fetch_betas], when the first lookup is the
    run's lookup number [n]. *)
Fixpoint record_betas (s : services) (n : nat) (tickers : list ticker_cell)
  (beta_values : beta_frame) : beta_frame :=
  match tickers with
  | [] => beta_values
  | t :: rest =>
      record_betas s (S n) rest (dict_set beta_values t (beta_of_reply (yf_service s n t)))
  end.

Fixpoint betas_from (s : services) (n : nat) (tickers : list ticker_cell) : beta_frame :=
  match tickers with
  | [] => []
  | t :: rest => (t, beta_of_reply (yf_service s n t)) :: betas_from s (S n) rest
  end.

(** What the loop of [fetch_betas] adds to the trace. *)
Fixpoint fetch_events (s : services) (n : nat) (tickers : list ticker_cell) : list event :=
  match tickers with
  | [] => []
  | t :: rest =>
      YfInfo t ::
      match yf_service s n t with
      | YfRaises msg => [Print ("Could not fetch beta for " ++ show_ticker t ++ ": " ++ msg)]
      | YfInfoDict _ => []
      end ++ fetch_events s (S n) rest
  end.

(** The beta of the first row of a beta frame with ticker [t]. *)
Fixpoint beta_lookup (betas : beta_frame) (t : ticker_cell) : num_cell :=
  match betas with
  | [] => None
  | (t', b) :: rest => if ticker_eq_dec t' t then b else beta_lookup rest t
  end.

(** The frame [clean_data] holds just before the merge, and the tickers it
    hands to [fetch_betas]. *)
Definition cleaned_before_merge (data : list raw_row) : list cap_row :=
  with_market_cap (dropna (drop_duplicates key_eq_dec raw_key data)).

Definition distinct_tickers (data : list raw_row) : list ticker_cell :=
  unique (map (fun r => ticker (obs r)) (cleaned_before_merge data)).

(** The table [clean_data] returns when its first lookup is the run's
    lookup number [n]. *)
Definition cleaned_table (s : services) (n : nat) (data : list raw_row) : list row :=
  map (fun c => mk_row c (beta_lookup (betas_from s n (distinct_tickers data)) (ticker (obs c))))
      (cleaned_before_merge data).

(** A process starts with no lookup made and nothing traced. *)
Definition initial_world (file : option (list raw_row)) : world :=
  mk_world file 0 [].

(** What a callback invocation renders in a process that started in [w]. *)
Definition render_after_startup (s : services) (w : world)
  (sector : option string) (selected_tickers : option (list string))
  : outcome (html * figure * figure) :=
  match load_and_clean s w with
  | (Ok data, _) => update_dashboard data sector selected_tickers
  | (Raise e, _) => Raise e
  end.

Definition has_key (k : key) (r : row) : bool :=
  if key_eq_dec (row_key r) k then true else false.

(** The flattened ticker list of [get_or_download_data]. *)
Definition ticker_universe : list string := flat_map snd SECTOR_TICKERS.

(** The rows of crsp.msenames that the mapping query selects, and the table
    a download builds from the warehouse. *)
Definition selected_msenames (s : services) : list (Z * string) :=
  filter (fun m => in_strings (snd m) ticker_universe) (crsp_msenames s).

Definition downloaded_table (s : services) : list raw_row :=
  map (fun r => mk_raw (Some (dsf_permno r)) (Some (dsf_date r)) (dsf_prc r)
                       (dsf_shrout r) (dsf_vol r)
                       (permno_lookup (selected_msenames s) (dsf_permno r)))
      (filter (fun r => (if in_dec Z.eq_dec (dsf_permno r) (map fst (selected_msenames s))
                         then true else false)
                        && (since_2015 <=? dsf_date r)%Z)
              (crsp_dsf s)).

(** Every outside step of a download goes through: the login, the two
    queries, the close and the write of the cache file. *)
Definition download_succeeds (s : services) : Prop :=
  wrds_login s = true /\
  wrds_answers s (SelectDsf ticker_universe since_2015) = true /\
  wrds_answers s (SelectMsenames ticker_universe) = true /\
  wrds_closes s = true /\
  csv_write s = Written.

(** The first row of a frame with a given (ticker, date). *)
Definition first_with_key (k : key) (data : list raw_row) : option raw_row :=
  find (fun r => if key_eq_dec (raw_key r) k then true else false) data.

Definition complete (r : raw_row) : bool :=
  notnull (stock_price r) && notnull (shrout r).

(** ** A small run, for concrete checks *)

Definition sample_cache : list raw_row :=
  [ mk_raw (Some 14593%Z) (Some 16437%Z) (Some (3 # 2)%Q) (Some (2 # 1)%Q) (Some (10 # 1)%Q) (Some "AAPL");
    mk_raw (Some 14593%Z) (Some 16438%Z) (Some (5 # 2)%Q) (Some (2 # 1)%Q) None (Some "AAPL");
    mk_raw (Some 14593%Z) (Some 16437%Z) (Some (9 # 1)%Q) (Some (2 # 1)%Q) None (Some "AAPL");
    mk_raw (Some 10107%Z) (Some 16437%Z) (Some (4 # 1)%Q) None None (Some "MSFT");
    mk_raw (Some 22111%Z) (Some 16437%Z) (Some (7 # 1)%Q) (Some (1 # 1)%Q) None (Some "JNJ") ].

(** A beta service that knows AAPL and fails on JNJ. *)
Definition sample_services : services :=
  mk_services true (fun _ => true) true [] []
    (fun _ t =>
       match t with
       | Some "AAPL" => YfInfoDict (Some (6 # 5)%Q)
       | Some "JNJ" => YfRaises "HTTP Error 404: Not Found"
       | _ => YfInfoDict None
       end)
    Written.

(** The same service on a later day: the published beta of AAPL moved. *)
Definition sample_services_later : services :=
  mk_services true (fun _ => true) true [] []
    (fun _ t =>
       match t with
       | Some "AAPL" => YfInfoDict (Some (13 # 10)%Q)
       | Some "JNJ" => YfRaises "HTTP Error 404: Not Found"
       | _ => YfInfoDict None
       end)
    Written.

(** A run without warehouse access whose beta service answers JNJ with an
    info dict that has no beta. *)
Definition sample_services_no_wrds : services :=
  mk_services false (fun _ => false) false [] []
    (fun _ t =>
       match t with
       | Some "AAPL" => YfInfoDict (Some (6 # 5)%Q)
       | _ => YfInfoDict None
       end)
    (WriteFails None).

(** A warehouse with two AAPL days, one of them before 2015, and a row of a
    security outside the ticker universe. *)
Definition sample_warehouse : services :=
  mk_services true (fun _ => true) true
    [ mk_dsf 14593 16435 (Some (1 # 1)%Q) (Some (2 # 1)%Q) None;
      mk_dsf 14593 16437 (Some (3 # 2)%Q) (Some (2 # 1)%Q) None;
      mk_dsf 99999 16437 (Some (8 # 1)%Q) (Some (2 # 1)%Q) None ]
    [ (14593%Z, "AAPL"); (99999%Z, "ZZZZ") ]
    (fun _ _ => YfInfoDict (Some (1 # 1)%Q))
    Written.

(** The same warehouse on a day when it accepts the login and the first
    query and refuses the mapping query. *)
Definition sample_warehouse_refusing : services :=
  mk_services true
    (fun q => match q with SelectDsf _ _ => true | SelectMsenames _ => false end)
    true
    (crsp_dsf sample_warehouse) (crsp_msenames sample_warehouse)
    (fun _ _ => YfInfoDict (Some (1 # 1)%Q))
    Written.



Definition sample_table : list row :=
  cleaned_table sample_services 0 sample_cache.

(** * Properties *)

(** ** Duplicates *)

Section FramesFacts.
Context {R K : Type}.
Variable K_eq_dec : forall a b : K, {a = b} + {a <> b}.
Variable key_of : R -> K.

Lemma mem_true k seen : mem K_eq_dec k seen = true <-> In k seen.
Proof. unfold mem. destruct (in_dec K_eq_dec k seen); split; intros; auto; discriminate. Qed.

Lemma mem_false k seen : mem K_eq_dec k seen = false <-> ~ In k seen.
Proof. unfold mem. destruct (in_dec K_eq_dec k seen); split; intros; auto; try discriminate; contradiction. Qed.

Lemma drop_duplicates_seen_sound rows : forall seen r,
  In r (drop_duplicates_seen K_eq_dec key_of seen rows) ->
  In r rows /\ ~ In (key_of r) seen.
Proof.
  induction rows as [|x rest IH]; simpl; intros seen r H; [contradiction|].
  destruct (mem K_eq_dec (key_of x) seen) eqn:E.
  - apply IH in H. tauto.
  - apply mem_false in E. destruct H as [->|H]; [tauto|].
    apply IH in H. simpl in H. tauto.
Qed.

Lemma drop_duplicates_seen_complete rows : forall seen r,
  In r rows ->
  In (key_of r) seen \/
  In (key_of r) (map key_of (drop_duplicates_seen K_eq_dec key_of seen rows)).
Proof.
  induction rows as [|x rest IH]; simpl; intros seen r H; [contradiction|].
  destruct (mem K_eq_dec (key_of x) seen) eqn:E.
  - destruct H as [->|H]; [left; now apply mem_true | now apply IH].
  - simpl. destruct H as [->|H]; [tauto|].
    destruct (IH (key_of x :: seen) r H) as [[->|]|]; tauto.
Qed.

Lemma drop_duplicates_seen_NoDup rows : forall seen,
  NoDup (map key_of (drop_duplicates_seen K_eq_dec key_of seen rows)).
Proof.
  induction rows as [|x rest IH]; simpl; intros seen; [constructor|].
  destruct (mem K_eq_dec (key_of x) seen) eqn:E; [apply IH|].
  simpl. constructor; [|apply IH].
  intros H. apply in_map_iff in H. destruct H as [r [Hk Hr]].
  apply drop_duplicates_seen_sound in Hr. simpl in Hr. destruct Hr as [_ Hr].
  apply Hr. now left.
Qed.

Lemma drop_duplicates_NoDup rows :
  NoDup (map key_of (drop_duplicates K_eq_dec key_of rows)).
Proof. apply drop_duplicates_seen_NoDup. Qed.

Lemma drop_duplicates_In rows r :
  In r (drop_duplicates K_eq_dec key_of rows) -> In r rows.
Proof. intros H. now apply drop_duplicates_seen_sound in H. Qed.

Lemma drop_duplicates_keys rows r :
  In r rows -> In (key_of r) (map key_of (drop_duplicates K_eq_dec key_of rows)).
Proof.
  intros H. destruct (drop_duplicates_seen_complete rows [] r H) as [[]|]; assumption.
Qed.

Lemma NoDup_map_filter (f : R -> bool) rows :
  NoDup (map key_of rows) -> NoDup (map key_of (filter f rows)).
Proof.
  induction rows as [|x rest IH]; simpl; intros H; [constructor|].
  inversion H as [|? ? Hx Hrest]; subst.
  destruct (f x); simpl; [constructor|]; auto.
  intros Hin. apply Hx. apply in_map_iff in Hin. destruct Hin as [r [Hk Hr]].
  apply filter_In in Hr. apply in_map_iff. exists r. tauto.
Qed.
End FramesFacts.

Lemma unique_NoDup col : NoDup (unique col).
Proof.
  unfold unique.
  pose proof (drop_duplicates_NoDup ticker_eq_dec (fun t => t) col) as H.
  now rewrite map_id in H.
Qed.

Lemma unique_In col t : In t (unique col) <-> In t col.
Proof.
  unfold unique. split; intros H.
  - now apply drop_duplicates_In in H.
  - apply (drop_duplicates_keys ticker_eq_dec (fun t => t)) in H.
    now rewrite map_id in H.
Qed.

(** ** The beta dict *)

Lemma dict_set_new d k v :
  ~ In k (map fst d) -> dict_set d k v = d ++ [(k, v)].
Proof.
  induction d as [|[k' v'] rest IH]; simpl; intros H; [reflexivity|].
  destruct (ticker_eq_dec k' k) as [->|Hne]; [tauto|].
  rewrite IH; tauto.
Qed.

Lemma dict_set_keys d k v t :
  In t (map fst (dict_set d k v)) <-> In t (map fst d) \/ t = k.
Proof.
  induction d as [|[k' v'] rest IH]; simpl.
  - intuition.
  - destruct (ticker_eq_dec k' k) as [->|Hne]; simpl; [intuition|].
    rewrite IH. intuition.
Qed.

Lemma dict_set_NoDup d k v :
  NoDup (map fst d) -> NoDup (map fst (dict_set d k v)).
Proof.
  induction d as [|[k' v'] rest IH]; simpl; intros H.
  - constructor; [intros []|constructor].
  - inversion H as [|? ? Hk Hrest]; subst.
    destruct (ticker_eq_dec k' k) as [->|Hne]; simpl; [now constructor|].
    constructor; [|auto].
    rewrite dict_set_keys. intros [Hin|Heq]; [tauto|congruence].
Qed.

Lemma record_betas_keys s ts : forall n bv t,
  In t (map fst (record_betas s n ts bv)) <-> In t (map fst bv) \/ In t ts.
Proof.
  induction ts as [|x rest IH]; simpl; intros n bv t; [tauto|].
  rewrite IH, dict_set_keys. intuition.
Qed.

Lemma record_betas_NoDup s ts : forall n bv,
  NoDup (map fst bv) -> NoDup (map fst (record_betas s n ts bv)).
Proof.
  induction ts as [|x rest IH]; simpl; intros n bv H; [assumption|].
  apply IH. now apply dict_set_NoDup.
Qed.

Lemma record_betas_distinct s ts : forall n bv,
  NoDup ts -> (forall t, In t ts -> ~ In t (map fst bv)) ->
  record_betas s n ts bv = bv ++ betas_from s n ts.
Proof.
  induction ts as [|x rest IH]; simpl; intros n bv Hnd Hfresh.
  - now rewrite app_nil_r.
  - inversion Hnd as [|? ? Hx Hrest]; subst.
    rewrite IH; auto.
    + rewrite dict_set_new by (apply Hfresh; now left).
      now rewrite <- app_assoc.
    + intros t Ht. rewrite dict_set_keys. intros [Hin| ->]; [|tauto].
      apply (Hfresh t); [now right | assumption].
Qed.

Lemma betas_from_keys s ts : forall n, map fst (betas_from s n ts) = ts.
Proof. induction ts as [|x rest IH]; simpl; intros n; [|rewrite IH]; reflexivity. Qed.

Lemma betas_from_nth s ts : forall n i t,
  nth_error ts i = Some t ->
  nth_error (betas_from s n ts) i = Some (t, beta_of_reply (yf_service s (n + i) t)).
Proof.
  induction ts as [|x rest IH]; intros n [|i] t H; simpl in *; try discriminate.
  - injection H as ->. now rewrite Nat.add_0_r.
  - rewrite (IH (S n) i t H). now rewrite Nat.add_succ_r.
Qed.

Lemma beta_lookup_In betas t b :
  NoDup (map fst betas) -> In (t, b) betas -> beta_lookup betas t = b.
Proof.
  induction betas as [|[t' b'] rest IH]; simpl; intros Hnd Hin; [contradiction|].
  inversion Hnd as [|? ? Hx Hrest]; subst.
  destruct Hin as [Heq|Hin].
  - injection Heq as -> ->. destruct (ticker_eq_dec t t); congruence.
  - destruct (ticker_eq_dec t' t) as [->|Hne]; [|auto].
    exfalso. apply Hx. apply in_map_iff. now exists (t, b).
Qed.

(** ** The loop of [fetch_betas] always returns *)

Lemma fetch_betas_loop_run s ts : forall bv w,
  fetch_betas_loop ts bv s w =
  (Ok (record_betas s (yf_calls w) ts bv),
   mk_world (csv_file w) (yf_calls w + List.length ts)
            (trace w ++ fetch_events s (yf_calls w) ts)).
Proof.
  induction ts as [|x rest IH]; intros bv w; simpl.
  - unfold ret. rewrite Nat.add_0_r, app_nil_r. now destruct w.
  - unfold bind, try_except, yf_Ticker_info, ret, print, log.
    destruct (yf_service s (yf_calls w) x) eqn:E; simpl;
      rewrite IH; simpl; rewrite Nat.add_succ_r;
      repeat rewrite <- app_assoc; reflexivity.
Qed.

Lemma fetch_betas_run s ts w :
  fetch_betas ts s w =
  (Ok (record_betas s (yf_calls w) ts []),
   mk_world (csv_file w) (yf_calls w + List.length ts)
            (trace w ++ fetch_events s (yf_calls w) ts)).
Proof. apply fetch_betas_loop_run. Qed.

Lemma fetch_events_network s ts : forall n,
  filter is_network (fetch_events s n ts) = map YfInfo ts.
Proof.
  induction ts as [|x rest IH]; intros n; simpl; [reflexivity|].
  rewrite filter_app, IH. now destruct (yf_service s n x).
Qed.

Lemma fetch_events_wrds s ts : forall n,
  filter is_wrds (fetch_events s n ts) = [].
Proof.
  induction ts as [|x rest IH]; intros n; simpl; [reflexivity|].
  rewrite filter_app, IH. now destruct (yf_service s n x).
Qed.

(** ** The merge *)

Lemma merge_matches right t :
  NoDup (map fst right) ->
  filter (fun b => if ticker_eq_dec (fst b) t then true else false) right = []
  /\ beta_lookup right t = None
  \/ exists b, filter (fun b => if ticker_eq_dec (fst b) t then true else false) right = [(t, b)]
               /\ beta_lookup right t = b.
Proof.
  induction right as [|[t' b'] rest IH]; simpl; intros Hnd; [now left|].
  inversion Hnd as [|? ? Hx Hrest]; subst.
  destruct (ticker_eq_dec t' t) as [->|Hne]; [|auto].
  right. exists b'. split; [|reflexivity]. f_equal.
  destruct (IH Hrest) as [[Hnil _]|[b [Hone _]]]; [assumption|].
  exfalso. apply Hx. apply in_map_iff. exists (t, b). split; [reflexivity|].
  assert (Hin : In (t, b) (filter (fun b0 => if ticker_eq_dec (fst b0) t then true else false) rest))
    by (rewrite Hone; now left).
  now apply filter_In in Hin.
Qed.

Lemma merge_left_unique_right left right :
  NoDup (map fst right) ->
  merge_left left right =
  map (fun l => mk_row l (beta_lookup right (ticker (obs l)))) left.
Proof.
  intros Hnd. unfold merge_left.
  rewrite flat_map_ext
    with (g := fun l => [mk_row l (beta_lookup right (ticker (obs l)))]).
  - induction left as [|l rest IH]; simpl; [|rewrite IH]; reflexivity.
  - intros l.
    destruct (merge_matches right (ticker (obs l)) Hnd) as [[Hf Hb]|[b [Hf Hb]]];
      rewrite Hf, Hb; reflexivity.
Qed.

(** ** [clean_data] always returns, and what it returns *)

Lemma clean_data_run s w data :
  clean_data data s w =
  (Ok (cleaned_table s (yf_calls w) data),
   mk_world (csv_file w) (yf_calls w + List.length (distinct_tickers data))
            (trace w ++ fetch_events s (yf_calls w) (distinct_tickers data))).
Proof.
  unfold clean_data, bind. fold (cleaned_before_merge data). fold (distinct_tickers data).
  rewrite fetch_betas_run. unfold ret. f_equal. f_equal.
  rewrite record_betas_distinct; [|apply unique_NoDup|intros t _ []].
  simpl. apply merge_left_unique_right.
  rewrite betas_from_keys. apply unique_NoDup.
Qed.

Lemma cleaned_table_pre s n data :
  map pre (cleaned_table s n data) = cleaned_before_merge data.
Proof. unfold cleaned_table. rewrite map_map. simpl. apply map_id. Qed.

Lemma cleaned_table_beta s n data r :
  In r (cleaned_table s n data) ->
  beta r = beta_lookup (betas_from s n (distinct_tickers data)) (row_ticker r).
Proof.
  unfold cleaned_table. intros H. apply in_map_iff in H.
  destruct H as [c [<- _]]. reflexivity.
Qed.

Lemma cleaned_table_In_pre s n data r :
  In r (cleaned_table s n data) -> In (pre r) (cleaned_before_merge data).
Proof.
  intros H. rewrite <- (cleaned_table_pre s n data). now apply in_map.
Qed.

Lemma cleaned_before_merge_keys data :
  NoDup (map cap_key (cleaned_before_merge data)).
Proof.
  unfold cleaned_before_merge, with_market_cap, dropna.
  rewrite map_map. simpl.
  apply NoDup_map_filter. apply drop_duplicates_NoDup.
Qed.

Lemma cleaned_before_merge_cells data c :
  In c (cleaned_before_merge data) ->
  exists p q, stock_price (obs c) = Some p /\ shrout (obs c) = Some q.
Proof.
  unfold cleaned_before_merge, with_market_cap, dropna. intros H.
  apply in_map_iff in H. destruct H as [r [<- Hr]].
  apply filter_In in Hr. destruct Hr as [_ Hr]. simpl.
  destruct (stock_price r) as [p|]; [|discriminate].
  destruct (shrout r) as [q|]; [|discriminate].
  now exists p, q.
Qed.

Lemma count_key_le_1 (rows : list row) k :
  NoDup (map row_key rows) -> List.length (filter (has_key k) rows) <= 1.
Proof.
  induction rows as [|r rest IH]; simpl; intros Hnd; [lia|].
  inversion Hnd as [|? ? Hr Hrest]; subst.
  unfold has_key at 1. destruct (key_eq_dec (row_key r) k) as [<-|Hne]; [|auto].
  simpl. assert (Hnil : filter (has_key (row_key r)) rest = []).
  { destruct (filter (has_key (row_key r)) rest) as [|x xs] eqn:E; [reflexivity|].
    exfalso. assert (Hx : In x (filter (has_key (row_key r)) rest)) by (rewrite E; now left).
    apply filter_In in Hx. destruct Hx as [Hx Hk]. unfold has_key in Hk.
    destruct (key_eq_dec (row_key x) (row_key r)) as [Heq|]; [|discriminate].
    apply Hr. rewrite <- Heq. now apply in_map. }
  rewrite Hnil. simpl. lia.
Qed.

(** ** The cleaned table *)

(** C3: for every input table, ticker and date, the table returned by
    [clean_data] has at most one row with that (ticker, date) pair. *)
Theorem at_most_one_row_per_ticker_and_date s w data :
  exists table w',
    clean_data data s w = (Ok table, w') /\
    forall (t : ticker_cell) (d : date_cell),
      List.length (filter (has_key (t, d)) table) <= 1.
Proof.
  eexists. eexists. split; [apply clean_data_run|].
  intros t d. apply count_key_le_1.
  change row_key with (fun r => cap_key (pre r)).
  rewrite <- map_map, cleaned_table_pre. apply cleaned_before_merge_keys.
Qed.

(** C4: no row of the table returned by [clean_data] has a missing
    stock_price or a missing shrout. *)
Theorem no_null_price_or_shrout_after_cleaning s w data :
  exists table w',
    clean_data data s w = (Ok table, w') /\
    forall r, In r table -> row_stock_price r <> None /\ row_shrout r <> None.
Proof.
  eexists. eexists. split; [apply clean_data_run|].
  intros r Hr. apply cleaned_table_In_pre in Hr.
  destruct (cleaned_before_merge_cells data (pre r) Hr) as [p [q [Hp Hq]]].
  unfold row_stock_price, row_shrout. rewrite Hp, Hq. split; discriminate.
Qed.

(** C8: in the table returned by [clean_data], two rows with the same
    ticker carry the same beta, whatever their dates. *)
Theorem beta_is_constant_per_ticker s w data :
  exists table w',
    clean_data data s w = (Ok table, w') /\
    forall r1 r2, In r1 table -> In r2 table ->
      row_ticker r1 = row_ticker r2 -> beta r1 = beta r2.
Proof.
  eexists. eexists. split; [apply clean_data_run|].
  intros r1 r2 H1 H2 Ht.
  rewrite (cleaned_table_beta _ _ _ _ H1), (cleaned_table_beta _ _ _ _ H2).
  now rewrite Ht.
Qed.

(** C10: [fetch_betas] returns exactly one row per distinct input ticker,
    and the table returned by [clean_data] has the rows of the
    deduplicated, null-dropped table, in number, order and every column
    from ticker to market_cap, with the beta column added. *)
Theorem merge_only_adds_the_beta_column s w data :
  (forall tickers, exists betas w',
      fetch_betas tickers s w = (Ok betas, w') /\
      NoDup (map fst betas) /\
      forall t, In t (map fst betas) <-> In t tickers) /\
  exists table w',
    clean_data data s w = (Ok table, w') /\
    List.length table = List.length (cleaned_before_merge data) /\
    map pre table = cleaned_before_merge data.
Proof.
  split.
  - intros tickers. eexists. eexists. split; [apply fetch_betas_run|]. split.
    + apply record_betas_NoDup. constructor.
    + intros t. rewrite record_betas_keys. simpl. tauto.
  - eexists. eexists. split; [apply clean_data_run|]. split.
    + unfold cleaned_table. apply length_map.
    + apply cleaned_table_pre.
Qed.

(** ** Failed beta lookups *)

Lemma lookup_fails_beta r : lookup_fails r = true -> beta_of_reply r = None.
Proof. destruct r as [|[b|]]; simpl; intros H; try reflexivity; discriminate. Qed.

(** C5: when the lookup of a ticker of the distinct-ticker list raises or
    yields no beta, [fetch_betas] still returns, with one entry per ticker
    of the list and a missing beta for that ticker, after looking up every
    ticker; and every row of that ticker is in the table returned by
    [clean_data], with a missing beta. *)
Theorem failed_lookup_gives_null_beta_not_absence s w data tickers i t :
  NoDup tickers ->
  nth_error tickers i = Some t ->
  lookup_fails (yf_service s (yf_calls w + i) t) = true ->
  (exists betas w',
      fetch_betas tickers s w = (Ok betas, w') /\
      map fst betas = tickers /\
      In (t, None) betas /\
      filter is_network (trace w') = filter is_network (trace w) ++ map YfInfo tickers) /\
  (tickers = distinct_tickers data ->
   exists table w',
      clean_data data s w = (Ok table, w') /\
      (forall c, In c (cleaned_before_merge data) -> ticker (obs c) = t ->
                 In (mk_row c None) table) /\
      (forall r, In r table -> row_ticker r = t -> beta r = None)).
Proof.
  intros Hnd Hi Hfail.
  assert (Hin : In (t, None) (betas_from s (yf_calls w) tickers)).
  { apply nth_error_In with (n := i).
    pose proof (betas_from_nth s tickers (yf_calls w) i t Hi) as Hn.
    rewrite (lookup_fails_beta _ Hfail) in Hn. exact Hn. }
  assert (Hlook : beta_lookup (betas_from s (yf_calls w) tickers) t = None).
  { apply beta_lookup_In; [now rewrite betas_from_keys | assumption]. }
  split.
  - eexists. eexists. split; [apply fetch_betas_run|].
    rewrite record_betas_distinct; [|assumption|intros ? _ []]. simpl.
    split; [apply betas_from_keys|]. split; [assumption|].
    now rewrite filter_app, fetch_events_network.
  - intros ->. eexists. eexists. split; [apply clean_data_run|]. split.
    + intros c Hc Ht. unfold cleaned_table. apply in_map_iff. exists c.
      split; [|assumption]. now rewrite Ht, Hlook.
    + intros r Hr Ht. rewrite (cleaned_table_beta _ _ _ _ Hr). now rewrite Ht.
Qed.

(** At the sample run: JNJ is the second distinct ticker and its lookup
    raises. *)
Lemma failed_lookup_sample :
  (exists betas w',
      fetch_betas [Some "AAPL"; Some "JNJ"] sample_services (initial_world None) = (Ok betas, w') /\
      map fst betas = [Some "AAPL"; Some "JNJ"] /\
      In (Some "JNJ", None) betas /\
      filter is_network (trace w') =
        filter is_network (trace (initial_world None)) ++ map YfInfo [Some "AAPL"; Some "JNJ"]) /\
  ([Some "AAPL"; Some "JNJ"] = distinct_tickers sample_cache ->
   exists table w',
      clean_data sample_cache sample_services (initial_world None) = (Ok table, w') /\
      (forall c, In c (cleaned_before_merge sample_cache) -> ticker (obs c) = Some "JNJ" ->
                 In (mk_row c None) table) /\
      (forall r, In r table -> row_ticker r = Some "JNJ" -> beta r = None)).
Proof.
  apply (failed_lookup_gives_null_beta_not_absence
           sample_services (initial_world None) sample_cache
           [Some "AAPL"; Some "JNJ"] 1 (Some "JNJ")).
  - repeat constructor; simpl; intuition discriminate.
  - reflexivity.
  - reflexivity.
Defined.

(** ** Runs that start from the cache file *)

Lemma get_or_download_data_cached s cache :
  get_or_download_data s (initial_world (Some cache)) =
  (Ok cache,
   mk_world (Some cache) 0
            [PathExists CSV_FILE;
             Print ("Found existing data in " ++ CSV_FILE ++ ".");
             ReadCsv CSV_FILE]).
Proof. reflexivity. Qed.

Lemma load_and_clean_cached s cache :
  load_and_clean s (initial_world (Some cache)) =
  (Ok (cleaned_table s 0 cache),
   mk_world (Some cache) (List.length (distinct_tickers cache))
            ([PathExists CSV_FILE;
              Print ("Found existing data in " ++ CSV_FILE ++ ".");
              ReadCsv CSV_FILE] ++ fetch_events s 0 (distinct_tickers cache))).
Proof.
  unfold load_and_clean, bind. rewrite get_or_download_data_cached.
  now rewrite clean_data_run.
Qed.

Lemma betas_from_ext s1 s2 ts : forall n,
  (forall i t, nth_error ts i = Some t ->
               beta_of_reply (yf_service s1 (n + i) t) = beta_of_reply (yf_service s2 (n + i) t)) ->
  betas_from s1 n ts = betas_from s2 n ts.
Proof.
  induction ts as [|x rest IH]; intros n H; simpl; [reflexivity|].
  f_equal.
  - f_equal. specialize (H 0 x eq_refl). now rewrite Nat.add_0_r in H.
  - apply IH. intros i t Hi. specialize (H (S i) t Hi).
    now rewrite Nat.add_succ_r in H.
Qed.

(** C1, as the code has it: two runs that start from the same existing
    cache file make no call to the WRDS warehouse; the network calls of
    each are exactly one beta lookup per distinct ticker of the cleaned
    cache; and when those lookups leave the same betas in both runs, the
    runs build the same cleaned table and render the same results for the
    same selections. *)
Theorem cached_runs_agree_when_betas_agree s1 s2 cache :
  (forall i t, nth_error (distinct_tickers cache) i = Some t ->
               beta_of_reply (yf_service s1 i t) = beta_of_reply (yf_service s2 i t)) ->
  exists table w1 w2,
    load_and_clean s1 (initial_world (Some cache)) = (Ok table, w1) /\
    load_and_clean s2 (initial_world (Some cache)) = (Ok table, w2) /\
    (forall sector selected,
        render_after_startup s1 (initial_world (Some cache)) sector selected =
        render_after_startup s2 (initial_world (Some cache)) sector selected) /\
    filter is_wrds (trace w1) = [] /\
    filter is_wrds (trace w2) = [] /\
    filter is_network (trace w1) = map YfInfo (distinct_tickers cache) /\
    filter is_network (trace w2) = map YfInfo (distinct_tickers cache).
Proof.
  intros Hsame.
  assert (Htable : cleaned_table s2 0 cache = cleaned_table s1 0 cache).
  { unfold cleaned_table. now rewrite (betas_from_ext s1 s2 _ 0 Hsame). }
  eexists. eexists. eexists.
  split; [apply load_and_clean_cached|].
  split; [rewrite load_and_clean_cached, Htable; reflexivity|].
  split.
  { intros sector selected. unfold render_after_startup.
    now rewrite !load_and_clean_cached, Htable. }
  cbn [trace]. rewrite !filter_app, !fetch_events_wrds, !fetch_events_network.
  repeat split.
Qed.

Lemma cached_runs_agree_sample :
  exists table w1 w2,
    load_and_clean sample_services (initial_world (Some sample_cache)) = (Ok table, w1) /\
    load_and_clean sample_services_no_wrds (initial_world (Some sample_cache)) = (Ok table, w2) /\
    (forall sector selected,
        render_after_startup sample_services (initial_world (Some sample_cache)) sector selected =
        render_after_startup sample_services_no_wrds (initial_world (Some sample_cache)) sector selected) /\
    filter is_wrds (trace w1) = [] /\
    filter is_wrds (trace w2) = [] /\
    filter is_network (trace w1) = map YfInfo (distinct_tickers sample_cache) /\
    filter is_network (trace w2) = map YfInfo (distinct_tickers sample_cache).
Proof.
  apply (cached_runs_agree_when_betas_agree
           sample_services sample_services_no_wrds sample_cache).
  intros i t H. vm_compute in H.
  destruct i as [|[|i]]; [| |destruct i]; inversion H; reflexivity.
Defined.

(** The claim C1 as the spec words it fails: with the cache file present,
    startup still looks betas up over the network, and two runs whose
    lookups are answered differently build different tables. *)
Lemma cached_rerun_uses_network_and_may_differ :
  fst (load_and_clean sample_services (initial_world (Some sample_cache))) <>
  fst (load_and_clean sample_services_later (initial_world (Some sample_cache))) /\
  filter is_network
         (trace (snd (load_and_clean sample_services (initial_world (Some sample_cache))))) =
  [YfInfo (Some "AAPL"); YfInfo (Some "JNJ")].
Proof.
  split.
  - vm_compute. discriminate.
  - vm_compute. reflexivity.
Qed.

(** ** The callbacks *)

Lemma dict_get_In d k v : dict_get d k = Ok v -> In (k, v) d.
Proof.
  induction d as [|[k' v'] rest IH]; simpl; intros H; [discriminate|].
  destruct (string_dec k' k) as [->|Hne]; [injection H as ->; now left | right; auto].
Qed.

Lemma dict_get_NoDup d k v :
  NoDup (map fst d) -> In (k, v) d -> dict_get d k = Ok v.
Proof.
  induction d as [|[k' v'] rest IH]; simpl; intros Hnd Hin; [contradiction|].
  inversion Hnd as [|? ? Hk Hrest]; subst.
  destruct Hin as [Heq|Hin].
  - injection Heq as -> ->. destruct (string_dec k k); congruence.
  - destruct (string_dec k' k) as [->|Hne]; [|auto].
    exfalso. apply Hk. apply in_map_iff. now exists (k, v).
Qed.

Lemma SECTOR_TICKERS_keys_NoDup : NoDup (map fst SECTOR_TICKERS).
Proof.
  simpl. repeat (constructor; [simpl; intuition discriminate|]). constructor.
Qed.

Lemma sector_members_In sector members :
  In (sector, members) SECTOR_TICKERS -> sector_members (Some sector) = Ok members.
Proof. apply dict_get_NoDup, SECTOR_TICKERS_keys_NoDup. Qed.

(** C7: for a sector of the static table, [update_ticker_dropdown] returns
    options whose values (and labels) are that sector's tickers in the
    table's order; the sector dropdown starts on the first sector of the
    table, Technology. *)
Theorem ticker_options_are_exactly_the_sector_members sector members :
  In (sector, members) SECTOR_TICKERS ->
  (exists options,
      update_ticker_dropdown (Some sector) = Ok options /\
      map value options = members /\
      map label options = members) /\
  dd_value sector_dropdown = hd_error (map fst SECTOR_TICKERS) /\
  dd_value sector_dropdown = Some "Technology".
Proof.
  intros Hin. split; [|split; reflexivity].
  unfold update_ticker_dropdown. rewrite (sector_members_In _ _ Hin).
  eexists. split; [reflexivity|].
  rewrite !map_map. simpl. now rewrite map_id.
Qed.

Lemma ticker_options_sample :
  (exists options,
      update_ticker_dropdown (Some "Energy") = Ok options /\
      map value options = ["XOM"; "CVX"; "BP"; "TOT"; "COP"; "ENB"; "EOG"; "KMI"; "SLB"; "OXY"] /\
      map label options = ["XOM"; "CVX"; "BP"; "TOT"; "COP"; "ENB"; "EOG"; "KMI"; "SLB"; "OXY"]) /\
  dd_value sector_dropdown = hd_error (map fst SECTOR_TICKERS) /\
  dd_value sector_dropdown = Some "Technology".
Proof.
  apply (ticker_options_are_exactly_the_sector_members "Energy").
  simpl. do 2 right. left. reflexivity.
Defined.

(** C6, as the code has it: for a sector of the static table and no ticker
    selected (an empty list or None), [update_dashboard] returns the
    averages over all rows of the sector and two empty figures. *)
Theorem no_selection_renders_averages_and_empty_figures data sector members selected :
  In (sector, members) SECTOR_TICKERS ->
  selected = None \/ selected = Some [] ->
  update_dashboard data (Some sector) selected =
  Ok (averages_component (sector_rows members data), EmptyFigure, EmptyFigure).
Proof.
  intros Hin Hsel. unfold update_dashboard.
  rewrite (sector_members_In _ _ Hin).
  destruct Hsel as [-> | ->]; reflexivity.
Qed.

Lemma no_selection_sample :
  update_dashboard sample_table (Some "Healthcare") (Some []) =
  Ok (averages_component
        (sector_rows ["JNJ"; "PFE"; "MRK"; "LLY"; "ABT"; "TMO"; "BMY"; "AMGN"; "CVS"; "GILD"]
                     sample_table),
      EmptyFigure, EmptyFigure).
Proof.
  apply (no_selection_renders_averages_and_empty_figures sample_table "Healthcare").
  - simpl. right. left. reflexivity.
  - right. reflexivity.
Defined.

(** The claim C6 for every sector value fails: once the sector dropdown is
    cleared the callback receives None and the table lookup raises. *)
Lemma cleared_sector_raises_KeyError :
  update_dashboard sample_table None None = Raise KeyError.
Proof. reflexivity. Qed.

Lemma ticker_is_true t c : ticker_is t c = true <-> c = Some t.
Proof.
  destruct c as [t'|]; simpl; [|split; discriminate].
  destruct (string_dec t' t) as [->|Hne]; split; intros H; auto; try discriminate.
  congruence.
Qed.

Lemma beta_column_is_object_true data :
  beta_column_is_object data = true <-> forall r, In r data -> beta r = None.
Proof.
  unfold beta_column_is_object. rewrite forallb_forall. split; intros H r Hr.
  - specialize (H r Hr). now destruct (beta r).
  - now rewrite (H r Hr).
Qed.

Lemma beta_table_rows_ok object_dtype sector_data selected : forall trs,
  beta_table_rows object_dtype sector_data selected = Ok trs ->
  forall t, In t selected -> exists r, In r sector_data /\ row_ticker r = Some t.
Proof.
  induction selected as [|x rest IH]; intros trs H t Hin; [contradiction|].
  simpl in H.
  destruct (filter (fun r => ticker_is x (row_ticker r)) sector_data) as [|r rs] eqn:E;
    [discriminate|].
  destruct (format_2f object_dtype (beta r)) as [shown|]; [|discriminate].
  destruct (beta_table_rows object_dtype sector_data rest) as [trs'|] eqn:E';
    [|discriminate].
  destruct Hin as [->|Hin]; [|exact (IH trs' eq_refl t Hin)].
  exists r. assert (Hr : In r (filter (fun r => ticker_is t (row_ticker r)) sector_data))
    by (rewrite E; now left).
  apply filter_In in Hr. destruct Hr as [Hr Ht]. now apply ticker_is_true in Ht.
Qed.








(** ** Concrete runs *)

Example sample_table_value :
  map (fun r => (row_ticker r, row_date r, row_market_cap r, beta r)) sample_table =
  [ (Some "AAPL", Some 16437%Z, Some (6000 # 2)%Q, Some (6 # 5)%Q);
    (Some "AAPL", Some 16438%Z, Some (10000 # 2)%Q, Some (6 # 5)%Q);
    (Some "JNJ", Some 16437%Z, Some (7000 # 1)%Q, None) ].
Proof. reflexivity. Qed.

Example one_ticker_one_series_one_bar :
  exists info points bar,
    update_dashboard sample_table (Some "Technology") (Some ["AAPL"]) =
    Ok (info,
        LineFigure "Stock Price Trends" [mk_trace "AAPL" points false],
        BarFigure "Market Cap Comparison" [("AAPL", bar)]).
Proof. do 3 eexists. vm_compute. reflexivity. Qed.

Example first_run_downloads_and_saves :
  exists table w,
    load_and_clean sample_warehouse (initial_world None) = (Ok table, w) /\
    map row_key table = [(Some "AAPL", Some 16437%Z)] /\
    csv_file w =
      Some [mk_raw (Some 14593%Z) (Some 16437%Z) (Some (3 # 2)%Q) (Some (2 # 1)%Q) None
                   (Some "AAPL")] /\
    filter is_wrds (trace w) =
      [ WrdsConnect;
        WrdsRawSql (SelectDsf (flat_map snd SECTOR_TICKERS) since_2015);
        WrdsRawSql (SelectMsenames (flat_map snd SECTOR_TICKERS));
        WrdsClose ].
Proof. do 2 eexists. vm_compute. repeat split. Qed.

Example first_run_without_login_is_fatal :
  fst (load_and_clean sample_services_no_wrds (initial_world None)) = Raise ConnectionError.
Proof. reflexivity. Qed.

(** * Further properties of the code *)

(** ** Acquisition *)

Lemma permno_lookup_Some mapping p t :
  permno_lookup mapping p = Some t -> In (p, t) mapping.
Proof.
  induction mapping as [|[p' t'] rest IH]; simpl; intros H; [discriminate|].
  destruct (permno_lookup rest p) as [t''|] eqn:E.
  - injection H as ->. right. now apply IH.
  - destruct (Z.eq_dec p' p) as [->|]; [|discriminate].
    injection H as ->. now left.
Qed.

Lemma permno_lookup_mapped mapping p :
  In p (map fst mapping) -> exists t, permno_lookup mapping p = Some t.
Proof.
  induction mapping as [|[p' t'] rest IH]; simpl; intros H; [contradiction|].
  destruct (permno_lookup rest p) as [t''|] eqn:E; [now exists t''|].
  destruct H as [->|H]; [|destruct (IH H); discriminate].
  destruct (Z.eq_dec p p); [now exists t' | congruence].
Qed.

Lemma permno_lookup_unmapped mapping p :
  ~ In p (map fst mapping) -> permno_lookup mapping p = None.
Proof.
  intros H. destruct (permno_lookup mapping p) as [t|] eqn:E; [|reflexivity].
  exfalso. apply H. apply permno_lookup_Some in E.
  apply in_map_iff. now exists (p, t).
Qed.

Lemma in_strings_true x l : in_strings x l = true <-> In x l.
Proof.
  unfold in_strings. destruct (in_dec string_dec x l); split; intros; auto; discriminate.
Qed.

Lemma get_or_download_data_fresh s :
  download_succeeds s ->
  get_or_download_data s (initial_world None) =
  (Ok (downloaded_table s),
   mk_world (Some (downloaded_table s)) 0
     [ PathExists CSV_FILE;
       Print "No data found. Fetching from WRDS...";
       WrdsConnect;
       WrdsRawSql (SelectDsf ticker_universe since_2015);
       WrdsRawSql (SelectMsenames ticker_universe);
       WrdsClose;
       Print ("Saving data to " ++ CSV_FILE ++ "...");
       ToCsv CSV_FILE ]).
Proof.
  intros [Hlogin [Hdsf [Hnames [Hclose Hwrite]]]].
  unfold get_or_download_data, bind, os_path_exists, print, wrds_Connection,
    raw_sql_dsf, raw_sql_msenames, wrds_close, to_csv, ret, log, initial_world.
  fold ticker_universe.
  cbn [csv_file yf_calls trace notnull].
  rewrite Hlogin, Hdsf. cbn [csv_file yf_calls trace].
  rewrite Hnames. cbn [csv_file yf_calls trace].
  rewrite Hclose. cbn [csv_file yf_calls trace].
  rewrite Hwrite. reflexivity.
Qed.

(** Whatever the outside does, a run without a cache file either raises in
    [get_or_download_data] or returns the table built from the warehouse,
    and makes no beta lookup there. *)
Lemma get_or_download_data_fresh_cases s o w' :
  get_or_download_data s (initial_world None) = (o, w') ->
  yf_calls w' = 0 /\
  (forall data, o = Ok data -> data = downloaded_table s /\ download_succeeds s).
Proof.
  unfold download_succeeds.
  unfold get_or_download_data, bind, os_path_exists, print, wrds_Connection,
    raw_sql_dsf, raw_sql_msenames, wrds_close, to_csv, ret, log, initial_world.
  fold ticker_universe.
  cbn [csv_file yf_calls trace notnull].
  destruct (wrds_login s); cbn [csv_file yf_calls trace];
    [|intros H; injection H as <- <-; split; [reflexivity | discriminate]].
  destruct (wrds_answers s (SelectDsf ticker_universe since_2015));
    cbn [csv_file yf_calls trace];
    [|intros H; injection H as <- <-; split; [reflexivity | discriminate]].
  destruct (wrds_answers s (SelectMsenames ticker_universe));
    cbn [csv_file yf_calls trace];
    [|intros H; injection H as <- <-; split; [reflexivity | discriminate]].
  destruct (wrds_closes s); cbn [csv_file yf_calls trace];
    [|intros H; injection H as <- <-; split; [reflexivity | discriminate]].
  destruct (csv_write s); cbn [csv_file yf_calls trace];
    intros H; injection H as <- <-; split; try reflexivity; try discriminate.
  intros data Hd. injection Hd as <-. repeat split.
Qed.

(** X1: when the login, both queries, the close and the write all go
    through, a first run (no cache file) makes exactly these four
    warehouse calls and leaves a cache file holding the table it returns;
    a later process that finds this file returns the file's table and
    makes no network call in [get_or_download_data], even when the
    warehouse cannot be reached any more. *)
Theorem first_run_saves_cache_and_later_runs_skip_wrds s s' :
  download_succeeds s ->
  exists data w1,
    get_or_download_data s (initial_world None) = (Ok data, w1) /\
    csv_file w1 = Some data /\
    filter is_network (trace w1) =
      [ WrdsConnect;
        WrdsRawSql (SelectDsf ticker_universe since_2015);
        WrdsRawSql (SelectMsenames ticker_universe);
        WrdsClose ] /\
    exists w2,
      get_or_download_data s' (initial_world (csv_file w1)) = (Ok data, w2) /\
      filter is_network (trace w2) = [] /\
      csv_file w2 = csv_file w1.
Proof.
  intros Hok. eexists. eexists.
  split; [apply (get_or_download_data_fresh s Hok)|].
  split; [reflexivity|]. split; [reflexivity|].
  cbn [csv_file]. eexists. split; [apply get_or_download_data_cached|].
  split; reflexivity.
Qed.

Lemma first_run_saves_cache_sample :
  exists data w1,
    get_or_download_data sample_warehouse (initial_world None) = (Ok data, w1) /\
    csv_file w1 = Some data /\
    filter is_network (trace w1) =
      [ WrdsConnect;
        WrdsRawSql (SelectDsf ticker_universe since_2015);
        WrdsRawSql (SelectMsenames ticker_universe);
        WrdsClose ] /\
    exists w2,
      get_or_download_data sample_services_no_wrds (initial_world (csv_file w1)) = (Ok data, w2) /\
      filter is_network (trace w2) = [] /\
      csv_file w2 = csv_file w1.
Proof.
  apply (first_run_saves_cache_and_later_runs_skip_wrds sample_warehouse sample_services_no_wrds).
  repeat split.
Defined.

(** X2: without a cache file, a failed warehouse login is fatal: the
    exception leaves [get_or_download_data] and the module-level load, no
    query is sent, no beta lookup is made and no cache file is written. *)
Theorem failed_login_is_fatal_and_writes_nothing s w :
  csv_file w = None ->
  wrds_login s = false ->
  exists w',
    get_or_download_data s w = (Raise ConnectionError, w') /\
    load_and_clean s w = (Raise ConnectionError, w') /\
    csv_file w' = None /\
    yf_calls w' = yf_calls w /\
    trace w' = trace w ++ [ PathExists CSV_FILE;
                            Print "No data found. Fetching from WRDS...";
                            WrdsConnect ].
Proof.
  intros Hfile Hlogin.
  assert (H : get_or_download_data s w =
              (Raise ConnectionError,
               log WrdsConnect (log (Print "No data found. Fetching from WRDS...")
                                    (log (PathExists CSV_FILE) w)))).
  { unfold get_or_download_data, bind, os_path_exists, print, wrds_Connection.
    rewrite Hfile. cbn [notnull]. rewrite Hlogin. reflexivity. }
  eexists. split; [exact H|]. split; [unfold load_and_clean, bind; now rewrite H|].
  unfold log. cbn [csv_file yf_calls trace]. repeat split; try assumption.
  now rewrite <- !app_assoc.
Qed.

Lemma failed_login_sample :
  exists w',
    get_or_download_data sample_services_no_wrds (initial_world None) = (Raise ConnectionError, w') /\
    load_and_clean sample_services_no_wrds (initial_world None) = (Raise ConnectionError, w') /\
    csv_file w' = None /\
    yf_calls w' = yf_calls (initial_world None) /\
    trace w' = trace (initial_world None) ++
               [ PathExists CSV_FILE;
                 Print "No data found. Fetching from WRDS...";
                 WrdsConnect ].
Proof.
  apply (failed_login_is_fatal_and_writes_nothing sample_services_no_wrds (initial_world None));
    reflexivity.
Defined.

(** X3: every row of a table that [get_or_download_data] returns from a
    download (no cache file) has a permno, a date on or after 2015-01-01,
    and a ticker that is present, belongs to the ticker universe of the
    sector table and is a name of the row's permno in crsp.msenames. *)
Theorem downloaded_rows_are_dated_and_named s data w' :
  get_or_download_data s (initial_world None) = (Ok data, w') ->
  forall r, In r data ->
    exists p d t,
      permno r = Some p /\ date r = Some d /\ (since_2015 <= d)%Z /\
      ticker r = Some t /\ In t ticker_universe /\ In (p, t) (crsp_msenames s).
Proof.
  intros Hrun r Hr.
  destruct (get_or_download_data_fresh_cases s _ _ Hrun) as [_ Hdata].
  destruct (Hdata data eq_refl) as [-> _].
  unfold downloaded_table in Hr. apply in_map_iff in Hr.
  destruct Hr as [x [<- Hx]]. apply filter_In in Hx. destruct Hx as [_ Hx].
  apply andb_true_iff in Hx. destruct Hx as [Hp Hd].
  destruct (in_dec Z.eq_dec (dsf_permno x) (map fst (selected_msenames s))) as [Hin|];
    [|discriminate].
  destruct (permno_lookup_mapped _ _ Hin) as [t Ht].
  exists (dsf_permno x), (dsf_date x), t. cbn [permno date ticker].
  split; [reflexivity|]. split; [reflexivity|].
  split; [now apply Z.leb_le|]. split; [assumption|].
  apply permno_lookup_Some in Ht. unfold selected_msenames in Ht.
  apply filter_In in Ht. destruct Ht as [Hm Hu]. split; [|assumption].
  now apply in_strings_true in Hu.
Qed.

Lemma downloaded_rows_sample :
  get_or_download_data sample_warehouse (initial_world None) =
    (Ok (downloaded_table sample_warehouse),
     snd (get_or_download_data sample_warehouse (initial_world None))) /\
  forall r, In r (downloaded_table sample_warehouse) ->
    exists p d t,
      permno r = Some p /\ date r = Some d /\ (since_2015 <= d)%Z /\
      ticker r = Some t /\ In t ticker_universe /\
      In (p, t) (crsp_msenames sample_warehouse).
Proof.
  split; [reflexivity|].
  apply (downloaded_rows_are_dated_and_named
           sample_warehouse (downloaded_table sample_warehouse)
           (snd (get_or_download_data sample_warehouse (initial_world None)))).
  reflexivity.
Defined.

(** X19: without a cache file, a download that is refused at any step
    (login, either query, close, or the write of the cache file) is fatal:
    the exception leaves [get_or_download_data] and the module-level load,
    and no beta lookup is made.  Unless the failing step is the write
    itself, no cache file exists afterwards; and when a query is refused
    the connection is never closed. *)
Theorem refused_download_is_fatal s :
  ~ download_succeeds s ->
  exists e w',
    get_or_download_data s (initial_world None) = (Raise e, w') /\
    load_and_clean s (initial_world None) = (Raise e, w') /\
    (e = ConnectionError \/ e = DatabaseError \/ e = OSError) /\
    yf_calls w' = 0 /\
    (forall t, ~ In (YfInfo t) (trace w')) /\
    (e <> OSError -> csv_file w' = None) /\
    (wrds_answers s (SelectDsf ticker_universe since_2015) = false \/
     wrds_answers s (SelectMsenames ticker_universe) = false ->
     ~ In WrdsClose (trace w')).
Proof.
  intros Hfail. unfold download_succeeds in Hfail.
  assert (Hload : forall e w',
             get_or_download_data s (initial_world None) = (Raise e, w') ->
             load_and_clean s (initial_world None) = (Raise e, w'))
    by (intros e w' H; unfold load_and_clean, bind; now rewrite H).
  assert (Hrun : exists e w',
             get_or_download_data s (initial_world None) = (Raise e, w') /\
             (e = ConnectionError \/ e = DatabaseError \/ e = OSError) /\
             yf_calls w' = 0 /\
             (forall t, ~ In (YfInfo t) (trace w')) /\
             (e <> OSError -> csv_file w' = None) /\
             (wrds_answers s (SelectDsf ticker_universe since_2015) = false \/
              wrds_answers s (SelectMsenames ticker_universe) = false ->
              ~ In WrdsClose (trace w'))).
  { unfold get_or_download_data, bind, os_path_exists, print, wrds_Connection,
      raw_sql_dsf, raw_sql_msenames, wrds_close, to_csv, ret, log, initial_world.
    fold ticker_universe. cbn [csv_file yf_calls trace notnull].
    destruct (wrds_login s); cbn [csv_file yf_calls trace].
    2:{ do 2 eexists. split; [reflexivity|]. cbn [csv_file yf_calls trace].
        repeat split; auto; simpl; intuition discriminate. }
    destruct (wrds_answers s (SelectDsf ticker_universe since_2015));
      cbn [csv_file yf_calls trace].
    2:{ do 2 eexists. split; [reflexivity|]. cbn [csv_file yf_calls trace].
        repeat split; auto; simpl; intuition discriminate. }
    destruct (wrds_answers s (SelectMsenames ticker_universe));
      cbn [csv_file yf_calls trace].
    2:{ do 2 eexists. split; [reflexivity|]. cbn [csv_file yf_calls trace].
        repeat split; auto; simpl; intuition discriminate. }
    destruct (wrds_closes s); cbn [csv_file yf_calls trace].
    2:{ do 2 eexists. split; [reflexivity|]. cbn [csv_file yf_calls trace].
        repeat split; auto; simpl; intuition discriminate. }
    destruct (csv_write s) as [|left_behind]; cbn [csv_file yf_calls trace].
    - exfalso. apply Hfail. repeat split.
    - do 2 eexists. split; [reflexivity|]. cbn [csv_file yf_calls trace].
      repeat split; auto; simpl; intuition discriminate. }
  destruct Hrun as [e [w' [Hget Hrest]]].
  exists e, w'. split; [exact Hget|]. split; [exact (Hload e w' Hget) | exact Hrest].
Qed.

Lemma refused_download_sample :
  exists e w',
    get_or_download_data sample_warehouse_refusing (initial_world None) = (Raise e, w') /\
    load_and_clean sample_warehouse_refusing (initial_world None) = (Raise e, w') /\
    (e = ConnectionError \/ e = DatabaseError \/ e = OSError) /\
    yf_calls w' = 0 /\
    (forall t, ~ In (YfInfo t) (trace w')) /\
    (e <> OSError -> csv_file w' = None) /\
    (wrds_answers sample_warehouse_refusing (SelectDsf ticker_universe since_2015) = false \/
     wrds_answers sample_warehouse_refusing (SelectMsenames ticker_universe) = false ->
     ~ In WrdsClose (trace w')).
Proof.
  apply (refused_download_is_fatal sample_warehouse_refusing).
  intros [_ [_ [H _]]]. discriminate.
Defined.

(** X4: when crsp.msenames lists several names for one permno, the
    permno-to-ticker dict keeps the one listed last. *)
Theorem last_listed_name_of_a_permno_wins before after p t :
  ~ In p (map fst after) ->
  permno_lookup (before ++ (p, t) :: after) p = Some t.
Proof.
  intros Hafter. induction before as [|[p' t'] rest IH]; simpl.
  - rewrite (permno_lookup_unmapped _ _ Hafter).
    destruct (Z.eq_dec p p); congruence.
  - now rewrite IH.
Qed.

Lemma last_listed_name_sample :
  permno_lookup ([(14593%Z, "AAPL"); (13407%Z, "FB")] ++ (13407%Z, "META") :: [(10107%Z, "MSFT")])
                13407%Z = Some "META".
Proof.
  apply last_listed_name_of_a_permno_wins. simpl. intros [H|[]]. discriminate.
Defined.

(** ** Enrichment *)

Section DuplicatesFacts.
Context {R K : Type}.
Variable K_eq_dec : forall a b : K, {a = b} + {a <> b}.
Variable key_of : R -> K.

Lemma mem_ext (seen1 seen2 : list K) k :
  (forall x, In x seen1 <-> In x seen2) ->
  mem K_eq_dec k seen1 = mem K_eq_dec k seen2.
Proof.
  intros H. destruct (mem K_eq_dec k seen2) eqn:E.
  - apply mem_true. apply H. now apply mem_true in E.
  - apply mem_false. rewrite H. now apply mem_false in E.
Qed.

Lemma drop_duplicates_seen_ext rows : forall seen1 seen2,
  (forall x, In x seen1 <-> In x seen2) ->
  drop_duplicates_seen K_eq_dec key_of seen1 rows =
  drop_duplicates_seen K_eq_dec key_of seen2 rows.
Proof.
  induction rows as [|r rest IH]; simpl; intros seen1 seen2 H; [reflexivity|].
  rewrite (mem_ext seen1 seen2 _ H).
  destruct (mem K_eq_dec (key_of r) seen2); [now apply IH|].
  f_equal. apply IH. intros x. simpl. rewrite H. tauto.
Qed.

Lemma drop_duplicates_seen_first rows : forall seen r,
  In r (drop_duplicates_seen K_eq_dec key_of seen rows) <->
  ~ In (key_of r) seen /\
  find (fun x => if K_eq_dec (key_of x) (key_of r) then true else false) rows = Some r.
Proof.
  induction rows as [|x rest IH]; simpl; intros seen r.
  - split; [contradiction | intros [_ H]; discriminate].
  - destruct (mem K_eq_dec (key_of x) seen) eqn:E.
    + apply mem_true in E. rewrite IH.
      destruct (K_eq_dec (key_of x) (key_of r)) as [Heq|Hne]; [|tauto].
      rewrite <- Heq. tauto.
    + apply mem_false in E. simpl. rewrite IH. simpl.
      destruct (K_eq_dec (key_of x) (key_of r)) as [Heq|Hne].
      * split.
        -- intros [->|[Hn _]]; [tauto|]. exfalso. apply Hn. now left.
        -- intros [_ H]. injection H as ->. now left.
      * split.
        -- intros [->|[Hn Hf]]; [congruence|]. tauto.
        -- intros [Hn Hf]. right. split; [|assumption]. intros [Hx|Hx]; auto.
Qed.

Lemma drop_duplicates_seen_fresh rows : forall seen,
  NoDup (map key_of rows) ->
  (forall r, In r rows -> ~ In (key_of r) seen) ->
  drop_duplicates_seen K_eq_dec key_of seen rows = rows.
Proof.
  induction rows as [|x rest IH]; simpl; intros seen Hnd Hfresh; [reflexivity|].
  inversion Hnd as [|? ? Hx Hrest]; subst.
  assert (E : mem K_eq_dec (key_of x) seen = false) by (apply mem_false; auto).
  rewrite E. f_equal. apply IH; [assumption|].
  intros r Hr [Heq|Hin]; [|exact (Hfresh r (or_intror Hr) Hin)].
  apply Hx. rewrite Heq. now apply in_map.
Qed.
End DuplicatesFacts.

Lemma dict_set_keys_same d k v :
  In k (map fst d) -> map fst (dict_set d k v) = map fst d.
Proof.
  induction d as [|[k' v'] rest IH]; simpl; intros H; [contradiction|].
  destruct (ticker_eq_dec k' k) as [->|Hne]; [reflexivity|].
  simpl. f_equal. apply IH. destruct H; [contradiction | assumption].
Qed.

Lemma dict_set_In_same d k v : In (k, v) (dict_set d k v).
Proof.
  induction d as [|[k' v'] rest IH]; simpl; [now left|].
  destruct (ticker_eq_dec k' k); [now left | now right].
Qed.

Lemma dict_set_In_other d k v t b :
  k <> t -> In (t, b) d -> In (t, b) (dict_set d k v).
Proof.
  intros Hne. induction d as [|[k' v'] rest IH]; simpl; intros H; [contradiction|].
  destruct (ticker_eq_dec k' k) as [->|Hk].
  - destruct H as [H|H]; [congruence | now right].
  - destruct H as [H|H]; [now left | right; auto].
Qed.

Lemma record_betas_key_order s ts : forall n bv,
  map fst (record_betas s n ts bv) =
  map fst bv ++ drop_duplicates_seen ticker_eq_dec (fun t => t) (map fst bv) ts.
Proof.
  induction ts as [|x rest IH]; simpl; intros n bv; [now rewrite app_nil_r|].
  rewrite IH. destruct (mem ticker_eq_dec x (map fst bv)) eqn:E.
  - apply mem_true in E. now rewrite (dict_set_keys_same _ _ _ E).
  - apply mem_false in E. rewrite (dict_set_new _ _ _ E), map_app. simpl.
    rewrite <- app_assoc. simpl. do 2 f_equal.
    apply drop_duplicates_seen_ext. intros t. rewrite in_app_iff. simpl. tauto.
Qed.

Lemma record_betas_keeps s ts : forall n bv t b,
  In (t, b) bv -> ~ In t ts -> In (t, b) (record_betas s n ts bv).
Proof.
  induction ts as [|x rest IH]; simpl; intros n bv t b Hin Hnot; [assumption|].
  apply IH; [|tauto]. apply dict_set_In_other; [|assumption].
  intros ->. tauto.
Qed.

Lemma record_betas_last s ts : forall n bv i t,
  nth_error ts i = Some t -> ~ In t (skipn (S i) ts) ->
  In (t, beta_of_reply (yf_service s (n + i) t)) (record_betas s n ts bv).
Proof.
  induction ts as [|x rest IH]; intros n bv [|i] t Hi Hlast; simpl in *; try discriminate.
  - injection Hi as ->. rewrite Nat.add_0_r.
    apply record_betas_keeps; [apply dict_set_In_same | assumption].
  - rewrite Nat.add_succ_r. now apply (IH (S n)).
Qed.

(** X5: for any ticker list, duplicates included, [fetch_betas] returns a
    frame whose tickers are the distinct input tickers in order of first
    appearance, and a ticker's beta comes from its last lookup. *)
Theorem fetch_betas_keeps_first_position_and_last_beta s w tickers :
  exists betas w',
    fetch_betas tickers s w = (Ok betas, w') /\
    map fst betas = unique tickers /\
    forall i t,
      nth_error tickers i = Some t -> ~ In t (skipn (S i) tickers) ->
      In (t, beta_of_reply (yf_service s (yf_calls w + i) t)) betas.
Proof.
  eexists. eexists. split; [apply fetch_betas_run|]. split.
  - now rewrite record_betas_key_order.
  - intros i t Hi Hlast. now apply record_betas_last.
Qed.

Lemma cleaned_table_tickers s n data t :
  (exists r, In r (cleaned_table s n data) /\ row_ticker r = t) <->
  In t (distinct_tickers data).
Proof.
  unfold distinct_tickers. rewrite unique_In, in_map_iff. split.
  - intros [r [Hr Ht]]. exists (pre r). split; [assumption|].
    now apply cleaned_table_In_pre in Hr.
  - intros [c [Ht Hc]]. rewrite <- (cleaned_table_pre s n data) in Hc.
    apply in_map_iff in Hc. destruct Hc as [r [<- Hr]]. now exists r.
Qed.

(** X6: [clean_data] never raises, whatever the lookups do, and leaves the
    cache file as it was; its only network calls are beta lookups, one per
    distinct ticker of the rows it keeps, so a ticker is looked up exactly
    when the returned table has a row of it. *)
Theorem clean_data_looks_up_exactly_the_kept_tickers s w data :
  exists table w' new,
    clean_data data s w = (Ok table, w') /\
    csv_file w' = csv_file w /\
    trace w' = trace w ++ new /\
    filter is_network new = map YfInfo (distinct_tickers data) /\
    NoDup (distinct_tickers data) /\
    forall t, In (YfInfo t) new <-> exists r, In r table /\ row_ticker r = t.
Proof.
  eexists. eexists. eexists. split; [apply clean_data_run|].
  split; [reflexivity|]. split; [reflexivity|].
  split; [apply fetch_events_network|]. split; [apply unique_NoDup|].
  intros t. rewrite cleaned_table_tickers.
  transitivity (In (YfInfo t) (filter is_network
                  (fetch_events s (yf_calls w) (distinct_tickers data)))).
  - rewrite filter_In. simpl. tauto.
  - rewrite fetch_events_network, in_map_iff. split.
    + intros [x [Hx Hin]]. now injection Hx as ->.
    + intros H. now exists t.
Qed.

(** ** Cleaning *)

Lemma drop_duplicates_first data r :
  In r (drop_duplicates key_eq_dec raw_key data) <->
  first_with_key (raw_key r) data = Some r.
Proof.
  unfold drop_duplicates, first_with_key.
  rewrite (drop_duplicates_seen_first key_eq_dec raw_key data [] r). simpl. tauto.
Qed.

Lemma first_with_key_key k data r :
  first_with_key k data = Some r -> raw_key r = k.
Proof.
  unfold first_with_key. intros H. apply find_some in H. destruct H as [_ H].
  destruct (key_eq_dec (raw_key r) k); [assumption | discriminate].
Qed.

Lemma cleaned_before_merge_In data c :
  In c (cleaned_before_merge data) <->
  first_with_key (cap_key c) data = Some (obs c) /\ complete (obs c) = true /\
  market_cap c = cell_mul (cell_mul (stock_price (obs c)) (shrout (obs c))) (Some (1000 # 1)%Q).
Proof.
  unfold cleaned_before_merge, with_market_cap, dropna. rewrite in_map_iff. split.
  - intros [r [<- Hr]]. apply filter_In in Hr. destruct Hr as [Hr Hc].
    apply drop_duplicates_first in Hr. simpl. unfold cap_key. simpl. tauto.
  - intros [Hf [Hc Hm]]. exists (obs c). split.
    + destruct c as [o m]. simpl in *. now rewrite Hm.
    + apply filter_In. split; [|exact Hc]. now apply drop_duplicates_first.
Qed.

(** X7: duplicates are dropped before incomplete rows are: a (ticker,
    date) pair is in the table returned by [clean_data] exactly when the
    first input row with that pair has both a stock_price and a shrout, and
    the returned row then carries that first row's cells; a complete
    duplicate further down does not rescue the pair. *)
Theorem first_occurrence_decides_whether_a_key_survives s w data :
  exists table w',
    clean_data data s w = (Ok table, w') /\
    (forall k, In k (map row_key table) <->
               exists r, first_with_key k data = Some r /\ complete r = true) /\
    (forall r, In r table -> first_with_key (row_key r) data = Some (obs (pre r))).
Proof.
  eexists. eexists. split; [apply clean_data_run|]. split.
  - intros k. change row_key with (fun r => cap_key (pre r)).
    rewrite <- map_map, cleaned_table_pre, in_map_iff. split.
    + intros [c [<- Hc]]. apply cleaned_before_merge_In in Hc.
      exists (obs c). tauto.
    + intros [r [Hf Hc]].
      exists (mk_cap r (cell_mul (cell_mul (stock_price r) (shrout r)) (Some (1000 # 1)%Q))).
      pose proof (first_with_key_key _ _ _ Hf) as Hk.
      split; [exact Hk|]. apply cleaned_before_merge_In.
      unfold cap_key. simpl. rewrite Hk. tauto.
  - intros r Hr. apply cleaned_table_In_pre in Hr.
    apply cleaned_before_merge_In in Hr. tauto.
Qed.

Lemma filter_all {A} (f : A -> bool) l :
  (forall x, In x l -> f x = true) -> filter f l = l.
Proof.
  induction l as [|x rest IH]; simpl; intros H; [reflexivity|].
  rewrite (H x (or_introl eq_refl)). f_equal. apply IH. intros y Hy. apply H. now right.
Qed.

Lemma cleaned_before_merge_clean data :
  NoDup (map raw_key data) ->
  (forall r, In r data -> complete r = true) ->
  map obs (cleaned_before_merge data) = data.
Proof.
  intros Hnd Hc. unfold cleaned_before_merge, with_market_cap, dropna.
  rewrite map_map. simpl. rewrite map_id.
  unfold drop_duplicates.
  rewrite drop_duplicates_seen_fresh; [|assumption|intros ? _ []].
  now apply filter_all.
Qed.

(** X8: a table that has no two rows with the same (ticker, date) and no
    row without stock_price or shrout goes through [clean_data] with every
    row kept, in order, and every input cell unchanged. *)
Theorem clean_data_keeps_a_clean_table s w data :
  NoDup (map raw_key data) ->
  (forall r, In r data -> complete r = true) ->
  exists table w',
    clean_data data s w = (Ok table, w') /\
    map (fun r => obs (pre r)) table = data.
Proof.
  intros Hnd Hc. eexists. eexists. split; [apply clean_data_run|].
  rewrite <- (map_map pre obs), cleaned_table_pre.
  now apply cleaned_before_merge_clean.
Qed.

Lemma keeps_a_clean_table_sample :
  exists table w',
    clean_data (map obs (cleaned_before_merge sample_cache)) sample_services (initial_world None)
    = (Ok table, w') /\
    map (fun r => obs (pre r)) table = map obs (cleaned_before_merge sample_cache).
Proof.
  apply (clean_data_keeps_a_clean_table sample_services (initial_world None)).
  - vm_compute. repeat (constructor; [simpl; intuition discriminate|]). constructor.
  - intros r Hr. vm_compute in Hr. destruct Hr as [<-|[<-|[<-|[]]]]; reflexivity.
Defined.

Example complete_duplicate_does_not_rescue_a_key :
  fst (clean_data
         [ mk_raw None (Some 16437%Z) None (Some (2 # 1)%Q) None (Some "AAPL");
           mk_raw None (Some 16437%Z) (Some (3 # 2)%Q) (Some (2 # 1)%Q) None (Some "AAPL") ]
         sample_services (initial_world None)) = Ok [].
Proof. reflexivity. Qed.

Lemma downloaded_table_ticker s r :
  In r (downloaded_table s) -> exists t, ticker r = Some t /\ In t ticker_universe.
Proof.
  unfold downloaded_table. intros Hr. apply in_map_iff in Hr.
  destruct Hr as [x [<- Hx]]. apply filter_In in Hx. destruct Hx as [_ Hx].
  apply andb_true_iff in Hx. destruct Hx as [Hp _].
  destruct (in_dec Z.eq_dec (dsf_permno x) (map fst (selected_msenames s))) as [Hin|];
    [|discriminate].
  destruct (permno_lookup_mapped _ _ Hin) as [t Ht]. exists t. split; [exact Ht|].
  apply permno_lookup_Some in Ht. unfold selected_msenames in Ht.
  apply filter_In in Ht. destruct Ht as [_ Hu]. now apply in_strings_true in Hu.
Qed.

Lemma cleaned_before_merge_from data c :
  In c (cleaned_before_merge data) -> In (obs c) data.
Proof.
  intros H. apply cleaned_before_merge_In in H. destruct H as [H _].
  unfold first_with_key in H. now apply find_some in H.
Qed.

(** X10: a run without a cache file, however it ends, makes at most 100
    beta lookups, and every row of the table it builds, when it builds
    one, carries a ticker of the universe. *)
Theorem first_run_looks_up_at_most_the_universe s o w' :
  load_and_clean s (initial_world None) = (o, w') ->
  yf_calls w' <= 100 /\
  forall table, o = Ok table ->
    forall r, In r table -> exists t, row_ticker r = Some t /\ In t ticker_universe.
Proof.
  unfold load_and_clean, bind.
  destruct (get_or_download_data s (initial_world None)) as [[data|e] w1] eqn:E.
  - destruct (get_or_download_data_fresh_cases s _ _ E) as [Hcalls Hdata].
    destruct (Hdata data eq_refl) as [-> _].
    rewrite clean_data_run, Hcalls. intros H. injection H as <- <-.
    cbn [yf_calls]. split.
    + change 100 with (List.length (map (@Some string) ticker_universe)).
      apply NoDup_incl_length; [apply unique_NoDup|].
      intros t Ht. unfold distinct_tickers in Ht. apply (proj1 (unique_In _ _)) in Ht.
      apply in_map_iff in Ht. destruct Ht as [c [<- Hc]].
      apply cleaned_before_merge_from in Hc.
      destruct (downloaded_table_ticker s _ Hc) as [t [-> Hu]]. now apply in_map.
    + intros table Ht r Hr. injection Ht as <-.
      apply cleaned_table_In_pre, cleaned_before_merge_from in Hr.
      exact (downloaded_table_ticker s _ Hr).
  - destruct (get_or_download_data_fresh_cases s _ _ E) as [Hcalls _].
    intros H. injection H as <- <-. rewrite Hcalls. split; [lia | discriminate].
Qed.

Lemma first_run_lookups_sample :
  yf_calls (snd (load_and_clean sample_warehouse (initial_world None))) <= 100 /\
  forall table,
    fst (load_and_clean sample_warehouse (initial_world None)) = Ok table ->
    forall r, In r table -> exists t, row_ticker r = Some t /\ In t ticker_universe.
Proof.
  apply (first_run_looks_up_at_most_the_universe sample_warehouse).
  apply surjective_pairing.
Defined.

(** ** Callbacks *)

Lemma dict_get_error d k e : dict_get d k = Raise e -> e = KeyError.
Proof.
  induction d as [|[k' v'] rest IH]; simpl; intros H; [congruence|].
  destruct (string_dec k' k); [discriminate | auto].
Qed.

Lemma sector_members_unknown sector :
  (forall s members, sector = Some s -> ~ In (s, members) SECTOR_TICKERS) ->
  sector_members sector = Raise KeyError.
Proof.
  intros H. destruct sector as [s|]; [|reflexivity]. unfold sector_members.
  destruct (dict_get SECTOR_TICKERS s) as [members|e] eqn:E.
  - exfalso. apply (H s members eq_refl). now apply dict_get_In.
  - now rewrite (dict_get_error _ _ _ E).
Qed.

(** X11: a sector value that is no key of the sector table (a cleared
    dropdown, or an unknown name) makes both callbacks raise KeyError,
    whatever the table and the selection are. *)
Theorem unknown_sector_raises_KeyError data sector selected :
  (forall s members, sector = Some s -> ~ In (s, members) SECTOR_TICKERS) ->
  update_ticker_dropdown sector = Raise KeyError /\
  update_dashboard data sector selected = Raise KeyError.
Proof.
  intros H. unfold update_ticker_dropdown, update_dashboard.
  now rewrite (sector_members_unknown sector H).
Qed.

Lemma unknown_sector_sample :
  update_ticker_dropdown (Some "Crypto") = Raise KeyError /\
  update_dashboard sample_table (Some "Crypto") (Some ["AAPL"]) = Raise KeyError.
Proof.
  apply unknown_sector_raises_KeyError.
  intros s members Hs Hin. injection Hs as <-.
  apply (in_map fst) in Hin. simpl in Hin. intuition discriminate.
Defined.

Lemma present_nil col : present col = [] <-> forall c, In c col -> c = None.
Proof.
  induction col as [|[q|] rest IH]; simpl.
  - tauto.
  - split; [discriminate|]. intros H. specialize (H (Some q) (or_introl eq_refl)).
    discriminate.
  - rewrite IH. split; intros H c; [intros [<-|Hc]; auto|]. intros Hc. apply H. now right.
Qed.

Lemma mean_missing col : mean col = None <-> forall c, In c col -> c = None.
Proof.
  rewrite <- present_nil. unfold mean.
  destruct (present col); split; intros H; try reflexivity; discriminate.
Qed.

Lemma mean_missing_map {A} (f : A -> num_cell) l :
  mean (map f l) = None <-> forall r, In r l -> f r = None.
Proof.
  rewrite mean_missing. split.
  - intros H r Hr. apply H. now apply in_map.
  - intros H c Hc. apply in_map_iff in Hc. destruct Hc as [r [<- Hr]]. auto.
Qed.

(** X12: for a sector of the table and no selection, each of the three
    averages is shown as missing (NaN) exactly when no row of the sector
    has a value in that column; in particular a sector without rows
    renders three NaN averages and does not raise. *)
Theorem averages_are_missing_only_without_values data sector members :
  In (sector, members) SECTOR_TICKERS ->
  exists cap price b,
    update_dashboard data (Some sector) None =
    Ok (Div [ H4 "Sector Averages";
              Ul [ Li "Average Market Cap: $" cap;
                   Li "Average Stock Price: $" price;
                   Li "Average Beta: " b ] ],
        EmptyFigure, EmptyFigure) /\
    (cap = None <-> forall r, In r (sector_rows members data) -> row_market_cap r = None) /\
    (price = None <-> forall r, In r (sector_rows members data) -> row_stock_price r = None) /\
    (b = None <-> forall r, In r (sector_rows members data) -> beta r = None).
Proof.
  intros Hin. unfold update_dashboard. rewrite (sector_members_In _ _ Hin).
  do 3 eexists. split; [reflexivity|].
  split; [apply mean_missing_map|]. split; apply mean_missing_map.
Qed.

Lemma averages_sample :
  exists cap price b,
    update_dashboard sample_table (Some "Healthcare") None =
    Ok (Div [ H4 "Sector Averages";
              Ul [ Li "Average Market Cap: $" cap;
                   Li "Average Stock Price: $" price;
                   Li "Average Beta: " b ] ],
        EmptyFigure, EmptyFigure) /\
    (cap = None <->
       forall r, In r (sector_rows ["JNJ"; "PFE"; "MRK"; "LLY"; "ABT"; "TMO"; "BMY"; "AMGN"; "CVS"; "GILD"]
                                   sample_table) -> row_market_cap r = None) /\
    (price = None <->
       forall r, In r (sector_rows ["JNJ"; "PFE"; "MRK"; "LLY"; "ABT"; "TMO"; "BMY"; "AMGN"; "CVS"; "GILD"]
                                   sample_table) -> row_stock_price r = None) /\
    (b = None <->
       forall r, In r (sector_rows ["JNJ"; "PFE"; "MRK"; "LLY"; "ABT"; "TMO"; "BMY"; "AMGN"; "CVS"; "GILD"]
                                   sample_table) -> beta r = None).
Proof.
  apply (averages_are_missing_only_without_values sample_table "Healthcare").
  simpl. right. left. reflexivity.
Defined.

Lemma isin_true values c : isin values c = true <-> exists t, c = Some t /\ In t values.
Proof.
  destruct c as [t|]; simpl.
  - rewrite in_strings_true. split; [intros H; now exists t|].
    intros [t' [Ht Hin]]. now injection Ht as ->.
  - split; [discriminate | intros [t [Ht _]]; discriminate].
Qed.



Lemma format_2f_ok object_dtype x y : format_2f object_dtype x = Ok y -> y = x.
Proof.
  unfold format_2f. destruct x as [q|]; [congruence|].
  destruct object_dtype; [discriminate | congruence].
Qed.

Lemma beta_table_rows_shape object_dtype sector_data selected : forall trs,
  beta_table_rows object_dtype sector_data selected = Ok trs ->
  Forall2 (fun t tr =>
             exists r,
               hd_error (filter (fun r => ticker_is t (row_ticker r)) sector_data) = Some r /\
               tr = Tr [Td t; TdFmt (beta r)])
          selected trs.
Proof.
  induction selected as [|x rest IH]; simpl; intros trs H.
  - injection H as <-. constructor.
  - destruct (filter (fun r => ticker_is x (row_ticker r)) sector_data) as [|r rs] eqn:E;
      [discriminate|].
    destruct (format_2f object_dtype (beta r)) as [shown|] eqn:F; [|discriminate].
    apply format_2f_ok in F. subst shown.
    destruct (beta_table_rows object_dtype sector_data rest) as [trs'|]; [|discriminate].
    injection H as <-. constructor; [|now apply IH].
    exists r. rewrite E. split; reflexivity.
Qed.

(** X14: when the callback returns for a sector of the table and a
    non-empty selection, its first output is the sector averages followed
    by a beta table with a header row and then one row per selected
    ticker, in selection order, showing the beta of the first row of that
    ticker among the sector's rows. *)
Theorem beta_table_follows_the_selection data sector members selected out :
  In (sector, members) SECTOR_TICKERS ->
  selected <> [] ->
  update_dashboard data (Some sector) (Some selected) = Ok out ->
  exists trs,
    fst (fst out) =
      Div [ averages_component (sector_rows members data);
            Div [ H4 "Selected Ticker Betas";
                  Table (Tr [Th "Ticker"; Th "Beta"] :: trs) ] ] /\
    Forall2 (fun t tr =>
               exists r,
                 hd_error (filter (fun r => ticker_is t (row_ticker r))
                                  (sector_rows members data)) = Some r /\
                 tr = Tr [Td t; TdFmt (beta r)])
            selected trs.
Proof.
  intros Hin Hne H. unfold update_dashboard in H. rewrite (sector_members_In _ _ Hin) in H.
  destruct selected as [|x rest]; [congruence|].
  destruct (beta_table_rows (beta_column_is_object data) (sector_rows members data)
              (x :: rest)) as [trs|] eqn:E; [|discriminate].
  injection H as <-. exists trs. split; [reflexivity|].
  now apply (beta_table_rows_shape (beta_column_is_object data)).
Qed.

Lemma beta_table_sample :
  exists trs,
    match update_dashboard sample_table (Some "Technology") (Some ["AAPL"]) with
    | Ok out =>
        fst (fst out) =
          Div [ averages_component
                  (sector_rows ["AAPL"; "MSFT"; "GOOG"; "NVDA"; "AMD"; "ORCL"; "CRM"; "ADBE"; "INTC"; "HPQ"]
                               sample_table);
                Div [ H4 "Selected Ticker Betas";
                      Table (Tr [Th "Ticker"; Th "Beta"] :: trs) ] ]
    | Raise _ => False
    end.
Proof.
  destruct (update_dashboard sample_table (Some "Technology") (Some ["AAPL"])) as [out|e] eqn:E;
    [|vm_compute in E; discriminate].
  destruct (beta_table_follows_the_selection
              sample_table "Technology"
              ["AAPL"; "MSFT"; "GOOG"; "NVDA"; "AMD"; "ORCL"; "CRM"; "ADBE"; "INTC"; "HPQ"]
              ["AAPL"] out) as [trs [Hinfo _]].
  - left. reflexivity.
  - discriminate.
  - exact E.
  - exists trs. exact Hinfo.
Defined.

Lemma cleaned_table_beta_reply s n data r :
  In r (cleaned_table s n data) ->
  exists j, nth_error (distinct_tickers data) j = Some (row_ticker r) /\
            beta r = beta_of_reply (yf_service s (n + j) (row_ticker r)).
Proof.
  intros Hr.
  assert (Hin : In (row_ticker r) (distinct_tickers data))
    by (apply (cleaned_table_tickers s n); now exists r).
  apply In_nth_error in Hin. destruct Hin as [j Hj]. exists j. split; [exact Hj|].
  rewrite (cleaned_table_beta _ _ _ _ Hr).
  apply beta_lookup_In; [rewrite betas_from_keys; apply unique_NoDup|].
  apply nth_error_In with (n := j). now apply betas_from_nth.
Qed.

(** X15: the beta the table shows for a selected ticker is the one its
    lookup left at startup.  After [clean_data], select one member ticker
    of the sector that has a kept row.  When at least one lookup of the
    run left a number, the callback returns a beta table whose single row
    shows the beta of that ticker's lookup (missing when that lookup raised
    or had no beta).  When no lookup left a number, the beta column holds
    None and the callback raises TypeError while formatting it. *)
Theorem beta_table_shows_the_beta_of_the_lookup s w data sector members i t :
  In (sector, members) SECTOR_TICKERS ->
  In t members ->
  nth_error (distinct_tickers data) i = Some (Some t) ->
  exists table w',
    clean_data data s w = (Ok table, w') /\
    ((exists j u q,
         nth_error (distinct_tickers data) j = Some u /\
         beta_of_reply (yf_service s (yf_calls w + j) u) = Some q) ->
     exists trend comparison,
       update_dashboard table (Some sector) (Some [t]) =
       Ok (Div [ averages_component (sector_rows members table);
                 Div [ H4 "Selected Ticker Betas";
                       Table [ Tr [Th "Ticker"; Th "Beta"];
                               Tr [Td t;
                                   TdFmt (beta_of_reply
                                            (yf_service s (yf_calls w + i) (Some t)))] ] ] ],
           trend, comparison)) /\
    ((forall j u,
         nth_error (distinct_tickers data) j = Some u ->
         beta_of_reply (yf_service s (yf_calls w + j) u) = None) ->
     update_dashboard table (Some sector) (Some [t]) = Raise TypeError).
Proof.
  intros Hin Hmem Hi. eexists. eexists.
  split; [apply clean_data_run|].
  set (table := cleaned_table s (yf_calls w) data).
  assert (Hrows : forall r, In r (filter (fun r => ticker_is t (row_ticker r))
                                         (sector_rows members table)) ->
                            beta r = beta_of_reply (yf_service s (yf_calls w + i) (Some t))).
  { intros r Hr. apply filter_In in Hr. destruct Hr as [Hr Ht].
    apply ticker_is_true in Ht. unfold sector_rows in Hr. apply filter_In in Hr.
    destruct Hr as [Hr _]. rewrite (cleaned_table_beta _ _ _ _ Hr), Ht.
    apply beta_lookup_In; [rewrite betas_from_keys; apply unique_NoDup|].
    apply nth_error_In with (n := i). now apply betas_from_nth. }
  assert (Hsome : exists r0 rs,
             filter (fun r => ticker_is t (row_ticker r)) (sector_rows members table)
             = r0 :: rs).
  { destruct (filter (fun r => ticker_is t (row_ticker r)) (sector_rows members table))
      as [|r0 rs] eqn:E; [|now exists r0, rs].
    exfalso. apply nth_error_In in Hi.
    apply (cleaned_table_tickers s (yf_calls w)) in Hi. destruct Hi as [r [Hr Ht]].
    assert (Hf : In r (filter (fun r => ticker_is t (row_ticker r))
                              (sector_rows members table))).
    { apply filter_In. split; [|now apply ticker_is_true].
      unfold sector_rows. apply filter_In. split; [exact Hr|].
      apply isin_true. now exists t. }
    now rewrite E in Hf. }
  destruct Hsome as [r0 [rs E]].
  pose proof (Hrows r0 ltac:(rewrite E; now left)) as Hr0.
  unfold update_dashboard. rewrite (sector_members_In _ _ Hin).
  cbn [beta_table_rows]. rewrite E. split.
  - intros [j [u [q [Hj Hq]]]].
    assert (Hobj : beta_column_is_object table = false).
    { destruct (beta_column_is_object table) eqn:Hb; [|reflexivity]. exfalso.
      pose proof (proj1 (beta_column_is_object_true table) Hb) as Hall.
      pose proof (nth_error_In _ _ Hj) as Hu.
      apply (cleaned_table_tickers s (yf_calls w)) in Hu. destruct Hu as [r [Hr Hu]].
      specialize (Hall r Hr). rewrite (cleaned_table_beta _ _ _ _ Hr), Hu in Hall.
      rewrite (beta_lookup_In _ u (Some q)) in Hall; [discriminate | |].
      - rewrite betas_from_keys. apply unique_NoDup.
      - apply nth_error_In with (n := j).
        rewrite (betas_from_nth s _ (yf_calls w) j u Hj). now rewrite Hq. }
    rewrite Hobj. unfold format_2f. rewrite Hr0.
    destruct (beta_of_reply (yf_service s (yf_calls w + i) (Some t)));
      do 2 eexists; reflexivity.
  - intros Hnone.
    assert (Hobj : beta_column_is_object table = true).
    { apply (proj2 (beta_column_is_object_true table)). intros r Hr.
      destruct (cleaned_table_beta_reply _ _ _ _ Hr) as [j [Hj Hbeta]].
      rewrite Hbeta. now apply Hnone. }
    rewrite Hobj. unfold format_2f. rewrite Hr0, (Hnone i (Some t) Hi). reflexivity.
Qed.

Lemma beta_table_lookup_sample :
  exists table w',
    clean_data sample_cache sample_services (initial_world None) = (Ok table, w') /\
    ((exists j u q,
         nth_error (distinct_tickers sample_cache) j = Some u /\
         beta_of_reply (yf_service sample_services (yf_calls (initial_world None) + j) u)
         = Some q) ->
     exists trend comparison,
       update_dashboard table (Some "Healthcare") (Some ["JNJ"]) =
       Ok (Div [ averages_component
                   (sector_rows ["JNJ"; "PFE"; "MRK"; "LLY"; "ABT"; "TMO"; "BMY"; "AMGN"; "CVS"; "GILD"]
                                table);
                 Div [ H4 "Selected Ticker Betas";
                       Table [ Tr [Th "Ticker"; Th "Beta"];
                               Tr [Td "JNJ";
                                   TdFmt (beta_of_reply
                                            (yf_service sample_services
                                               (yf_calls (initial_world None) + 1)
                                               (Some "JNJ")))] ] ] ],
           trend, comparison)) /\
    ((forall j u,
         nth_error (distinct_tickers sample_cache) j = Some u ->
         beta_of_reply (yf_service sample_services (yf_calls (initial_world None) + j) u)
         = None) ->
     update_dashboard table (Some "Healthcare") (Some ["JNJ"]) = Raise TypeError).
Proof.
  apply (beta_table_shows_the_beta_of_the_lookup
           sample_services (initial_world None) sample_cache "Healthcare").
  - simpl. right. left. reflexivity.
  - left. reflexivity.
  - reflexivity.
Defined.

(** ** Charts *)

Section SortingFacts.
Context {A : Type}.
Variable leb : A -> A -> bool.

Lemma insert_sorted_perm x l : Permutation (insert_sorted leb x l) (x :: l).
Proof.
  induction l as [|y rest IH]; simpl; [reflexivity|].
  destruct (leb x y); [reflexivity|].
  rewrite IH. apply perm_swap.
Qed.

Lemma sort_perm l : Permutation (sort leb l) l.
Proof.
  induction l as [|x rest IH]; simpl; [reflexivity|].
  rewrite insert_sorted_perm. now constructor.
Qed.

Hypothesis leb_total : forall a b, leb a b = true \/ leb b a = true.

Lemma insert_sorted_sorted x l :
  Sorted (fun a b => leb a b = true) l ->
  Sorted (fun a b => leb a b = true) (insert_sorted leb x l).
Proof.
  induction l as [|y rest IH]; simpl; intros Hs; [repeat constructor|].
  destruct (leb x y) eqn:E.
  - constructor; [assumption | now constructor].
  - apply Sorted_inv in Hs. destruct Hs as [Hrest Hhd].
    constructor; [now apply IH|].
    destruct rest as [|z rest']; simpl.
    + constructor. destruct (leb_total x y); congruence.
    + destruct (leb x z).
      * constructor. destruct (leb_total x y); congruence.
      * constructor. now apply HdRel_inv in Hhd.
Qed.

Lemma sort_sorted l : Sorted (fun a b => leb a b = true) (sort leb l).
Proof.
  induction l as [|x rest IH]; simpl; [constructor | now apply insert_sorted_sorted].
Qed.
End SortingFacts.

Lemma dedup_In {A} (dec : forall a b : A, {a = b} + {a <> b}) l x :
  In x (drop_duplicates dec (fun a => a) l) <-> In x l.
Proof.
  split; intros H.
  - now apply drop_duplicates_In in H.
  - apply (drop_duplicates_keys dec (fun a => a)) in H. now rewrite map_id in H.
Qed.

Lemma dedup_NoDup {A} (dec : forall a b : A, {a = b} + {a <> b}) l :
  NoDup (drop_duplicates dec (fun a => a) l).
Proof.
  pose proof (drop_duplicates_NoDup dec (fun a => a) l) as H. now rewrite map_id in H.
Qed.

Lemma groupby_ticker_date_tickers rows t :
  In t (map g_ticker (groupby_ticker_date rows)) <->
  exists r d, In r rows /\ row_ticker r = Some t /\ row_date r = Some d.
Proof.
  unfold groupby_ticker_date. rewrite map_map. simpl. rewrite in_map_iff. split.
  - intros [[t' d] [Ht Hk]]. simpl in Ht. subst t'.
    apply (Permutation_in _ (sort_perm group_key_leb _)) in Hk.
    apply dedup_In in Hk. apply in_flat_map in Hk. destruct Hk as [r [Hr Hk]].
    exists r, d. split; [exact Hr|]. unfold group_key_of in Hk.
    destruct (row_ticker r) as [t'|]; [|contradiction].
    destruct (row_date r) as [d'|]; [|contradiction].
    destruct Hk as [Hk|[]]. now injection Hk as -> ->.
  - intros [r [d [Hr [Ht Hd]]]]. exists (t, d). split; [reflexivity|].
    apply (Permutation_in _ (Permutation_sym (sort_perm group_key_leb _))).
    apply dedup_In. apply in_flat_map. exists r. split; [exact Hr|].
    unfold group_key_of. rewrite Ht, Hd. now left.
Qed.

(** X16: on a table whose rows all have a date, when the callback returns
    for a sector of the table and a non-empty selection, the trend chart
    has exactly one series per selected ticker and the bar chart exactly
    one bar per selected ticker.  No ticker has two series, no series
    connects gaps, and the bars are in ascending ticker order. *)
Theorem charts_have_one_series_and_one_bar_per_selected_ticker
  data sector members selected out :
  In (sector, members) SECTOR_TICKERS ->
  selected <> [] ->
  (forall r, In r data -> row_date r <> None) ->
  update_dashboard data (Some sector) (Some selected) = Ok out ->
  exists traces bars,
    snd (fst out) = LineFigure "Stock Price Trends" traces /\
    snd out = BarFigure "Market Cap Comparison" bars /\
    NoDup (map trace_name traces) /\
    (forall t, In t (map trace_name traces) <-> In t selected) /\
    Permutation (map fst bars) (map trace_name traces) /\
    Sorted (fun a b => String.leb a b = true) (map fst bars) /\
    Forall (fun tr => connectgaps tr = false) traces /\
    (NoDup selected ->
     List.length traces = List.length selected /\ List.length bars = List.length selected).
Proof.
  intros Hin Hne Hdated H. unfold update_dashboard in H.
  rewrite (sector_members_In _ _ Hin) in H.
  destruct selected as [|x rest]; [congruence|].
  destruct (beta_table_rows (beta_column_is_object data) (sector_rows members data)
              (x :: rest)) as [trs|] eqn:E; [|discriminate].
  injection H as <-. unfold px_line, px_bar. cbn [fst snd].
  eexists. eexists. split; [reflexivity|]. split; [reflexivity|].
  rewrite !map_map. cbn [trace_name fst]. rewrite !map_id.
  set (names := drop_duplicates string_dec (fun t => t)
                  (map g_ticker
                     (groupby_ticker_date
                        (filter (fun r => isin (x :: rest) (row_ticker r))
                                (sector_rows members data))))).
  assert (Hnames : forall t, In t names <-> In t (x :: rest)).
  { intros t. unfold names. rewrite dedup_In, groupby_ticker_date_tickers. split.
    - intros [r [d [Hr [Ht Hd]]]]. apply filter_In in Hr. destruct Hr as [_ Hsel].
      rewrite Ht in Hsel. simpl in Hsel. now apply in_strings_true in Hsel.
    - intros Hsel. destruct (beta_table_rows_ok _ _ _ trs E t Hsel) as [r [Hr Ht]].
      assert (Hd : row_date r <> None).
      { apply Hdated. unfold sector_rows in Hr. now apply filter_In in Hr. }
      destruct (row_date r) as [d|] eqn:Ed; [|congruence].
      exists r, d. split; [|tauto]. apply filter_In. split; [exact Hr|].
      rewrite Ht. simpl. now apply in_strings_true. }
  split; [apply dedup_NoDup|]. split; [exact Hnames|].
  split; [apply sort_perm|].
  split; [apply sort_sorted, String.leb_total|]. split.
  - apply Forall_forall. intros tr Htr. apply in_map_iff in Htr.
    now destruct Htr as [name [<- _]].
  - intros Hnd. rewrite !length_map.
    rewrite (Permutation_length (sort_perm String.leb names)).
    assert (Hp : Permutation names (x :: rest))
      by (apply NoDup_Permutation; [apply dedup_NoDup | exact Hnd | exact Hnames]).
    now rewrite (Permutation_length Hp).
Qed.

Lemma charts_sample :
  exists traces bars,
    match update_dashboard sample_table (Some "Technology") (Some ["AAPL"]) with
    | Ok out =>
        snd (fst out) = LineFigure "Stock Price Trends" traces /\
        snd out = BarFigure "Market Cap Comparison" bars /\
        List.length traces = 1 /\ List.length bars = 1
    | Raise _ => False
    end.
Proof.
  destruct (update_dashboard sample_table (Some "Technology") (Some ["AAPL"])) as [out|e] eqn:E;
    [|vm_compute in E; discriminate].
  destruct (charts_have_one_series_and_one_bar_per_selected_ticker
              sample_table "Technology"
              ["AAPL"; "MSFT"; "GOOG"; "NVDA"; "AMD"; "ORCL"; "CRM"; "ADBE"; "INTC"; "HPQ"]
              ["AAPL"] out) as [traces [bars [H1 [H2 [_ [_ [_ [_ [_ H3]]]]]]]]].
  - left. reflexivity.
  - discriminate.
  - intros r Hr. vm_compute in Hr. destruct Hr as [<-|[<-|[<-|[]]]]; discriminate.
  - exact E.
  - exists traces, bars. split; [exact H1|]. split; [exact H2|].
    apply H3. repeat constructor. intros [].
Defined.

(** ** Layout *)

(** X17: every option of the sector dropdown has its sector name as label
    and value, and both callbacks accept it: [update_ticker_dropdown]
    returns that sector's options, and [update_dashboard] with nothing
    selected returns averages and two empty figures.  The dropdown's
    initial value is one of its options. *)
Theorem every_offered_sector_is_accepted data o :
  In o (dd_options sector_dropdown) ->
  label o = value o /\
  (exists members options averages,
      In (value o, members) SECTOR_TICKERS /\
      update_ticker_dropdown (Some (value o)) = Ok options /\
      map value options = members /\
      update_dashboard data (Some (value o)) None = Ok (averages, EmptyFigure, EmptyFigure)) /\
  (exists o', In o' (dd_options sector_dropdown) /\ dd_value sector_dropdown = Some (value o')).
Proof.
  intros Ho. unfold sector_dropdown in Ho. cbn [dd_options] in Ho.
  apply in_map_iff in Ho. destruct Ho as [[name members] [<- Hin]]. cbn [label value fst].
  split; [reflexivity|]. split.
  - exists members. unfold update_ticker_dropdown, update_dashboard.
    rewrite (sector_members_In _ _ Hin). do 2 eexists.
    split; [exact Hin|]. split; [reflexivity|]. split; [|reflexivity].
    rewrite map_map. simpl. apply map_id.
  - exists (mk_option "Technology" "Technology"). split; [|reflexivity].
    left. reflexivity.
Qed.

Lemma every_offered_sector_sample :
  label (mk_option "Utilities" "Utilities") = value (mk_option "Utilities" "Utilities") /\
  (exists members options averages,
      In (value (mk_option "Utilities" "Utilities"), members) SECTOR_TICKERS /\
      update_ticker_dropdown (Some (value (mk_option "Utilities" "Utilities"))) = Ok options /\
      map value options = members /\
      update_dashboard sample_table (Some (value (mk_option "Utilities" "Utilities"))) None
      = Ok (averages, EmptyFigure, EmptyFigure)) /\
  (exists o', In o' (dd_options sector_dropdown) /\ dd_value sector_dropdown = Some (value o')).
Proof.
  apply (every_offered_sector_is_accepted sample_table (mk_option "Utilities" "Utilities")).
  simpl. do 7 right. left. reflexivity.
Defined.

Lemma filter_unique_key {K} (f : row -> K) (p : row -> bool) rows r :
  NoDup (map f rows) ->
  In r rows ->
  (forall x, In x rows -> (p x = true <-> f x = f r)) ->
  filter p rows = [r].
Proof.
  induction rows as [|x rest IH]; simpl; intros Hnd Hin Hp; [contradiction|].
  inversion Hnd as [|? ? Hx Hrest]; subst.
  assert (Hnone : forall l, (forall y, In y l -> f y <> f r) ->
                            (forall y, In y l -> (p y = true <-> f y = f r)) ->
                            filter p l = []).
  { induction l as [|y l' IHl]; simpl; intros Hne Hiff; [reflexivity|].
    destruct (p y) eqn:E.
    - exfalso. apply (Hne y (or_introl eq_refl)). now apply Hiff; [left|].
    - apply IHl; intros z Hz; [apply Hne | apply Hiff]; now right. }
  destruct Hin as [->|Hin].
  - assert (E : p r = true) by (apply Hp; [now left | reflexivity]).
    rewrite E. f_equal. apply Hnone.
    + intros y Hy Heq. apply Hx. rewrite <- Heq. now apply in_map.
    + intros y Hy. apply Hp. now right.
  - destruct (p x) eqn:E.
    + exfalso. apply Hx. assert (Heq : f x = f r) by (apply Hp; [now left | exact E]).
      rewrite Heq. now apply in_map.
    + apply IH; [assumption | assumption |]. intros y Hy. apply Hp. now right.
Qed.

Lemma group_key_of_In r t d :
  In (t, d) (group_key_of r) <-> row_key r = (Some t, Some d).
Proof.
  unfold group_key_of, row_key, cap_key, raw_key, row_ticker, row_date.
  destruct (ticker (obs (pre r))) as [t'|]; destruct (date (obs (pre r))) as [d'|]; simpl;
    split; intros H; try contradiction; try discriminate.
  - destruct H as [H|[]]. now injection H as -> ->.
  - injection H as -> ->. now left.
Qed.

Lemma mean_single p : exists q, mean [Some p] = Some q /\ (q == p)%Q.
Proof.
  eexists. split; [reflexivity|]. simpl. field.
Qed.

(** X18: on a table returned by [clean_data], the trend chart plots the
    table's own prices: every point of a series is the date of one table
    row of that ticker with that row's stock_price (the mean over a single
    row), and every dated table row of a selected member ticker is a point
    of that ticker's series. *)
Theorem trend_chart_plots_the_cleaned_prices s w data sector members selected :
  In (sector, members) SECTOR_TICKERS ->
  selected <> [] ->
  exists table w',
    clean_data data s w = (Ok table, w') /\
    forall out,
      update_dashboard table (Some sector) (Some selected) = Ok out ->
      exists traces,
        snd (fst out) = LineFigure "Stock Price Trends" traces /\
        (forall tr d y,
            In tr traces -> In (d, y) (trace_points tr) ->
            exists r p q,
              In r table /\ row_ticker r = Some (trace_name tr) /\ row_date r = Some d /\
              row_stock_price r = Some p /\ y = Some q /\ (q == p)%Q) /\
        (forall r t d,
            In r table -> row_ticker r = Some t -> row_date r = Some d ->
            In t selected -> In t members ->
            exists tr y, In tr traces /\ trace_name tr = t /\ In (d, y) (trace_points tr)).
Proof.
  intros Hin Hne. eexists. eexists. split; [apply clean_data_run|].
  set (table := cleaned_table s (yf_calls w) data).
  assert (Hkeys : NoDup (map row_key table)).
  { change row_key with (fun r => cap_key (pre r)).
    rewrite <- map_map. unfold table. rewrite cleaned_table_pre.
    apply cleaned_before_merge_keys. }
  assert (Hprice : forall r, In r table -> exists p, row_stock_price r = Some p).
  { intros r Hr. apply cleaned_table_In_pre in Hr.
    destruct (cleaned_before_merge_cells data (pre r) Hr) as [p [_ [Hp _]]]. now exists p. }
  intros out H. unfold update_dashboard in H. rewrite (sector_members_In _ _ Hin) in H.
  destruct selected as [|x rest]; [congruence|].
  destruct (beta_table_rows (beta_column_is_object table) (sector_rows members table)
              (x :: rest)) as [trs|]; [|discriminate].
  injection H as <-. cbn [fst snd]. unfold px_line. eexists. split; [reflexivity|].
  set (rows := filter (fun r => isin (x :: rest) (row_ticker r)) (sector_rows members table)).
  assert (Hrows : forall r, In r rows <->
                            In r table /\ isin members (row_ticker r) = true /\
                            isin (x :: rest) (row_ticker r) = true).
  { intros r. unfold rows, sector_rows. rewrite !filter_In. tauto. }
  assert (Hrk : NoDup (map row_key rows)).
  { unfold rows, sector_rows. now do 2 apply NoDup_map_filter. }
  assert (Hgroup : forall r t d,
             In r rows -> row_ticker r = Some t -> row_date r = Some d ->
             filter (fun r' => if in_dec group_key_eq_dec (t, d) (group_key_of r')
                               then true else false) rows = [r]).
  { intros r t d Hr Ht Hd. apply (filter_unique_key row_key); [exact Hrk | exact Hr |].
    intros r' _. assert (Hk : row_key r = (Some t, Some d))
      by (unfold row_key, cap_key, raw_key; unfold row_ticker in Ht; unfold row_date in Hd;
          now rewrite Ht, Hd).
    rewrite Hk, <- group_key_of_In.
    destruct (in_dec group_key_eq_dec (t, d) (group_key_of r')); split; intros; auto;
      discriminate. }
  assert (Hkeyin : forall k,
             In k (sort group_key_leb
                     (drop_duplicates group_key_eq_dec (fun k => k)
                        (flat_map group_key_of rows))) <->
             exists r, In r rows /\ row_ticker r = Some (fst k) /\ row_date r = Some (snd k)).
  { intros [t d]. cbn [fst snd]. split.
    - intros Hk. apply (Permutation_in _ (sort_perm group_key_leb _)) in Hk.
      apply dedup_In, in_flat_map in Hk. destruct Hk as [r [Hr Hk]].
      exists r. split; [exact Hr|]. apply group_key_of_In in Hk.
      unfold row_key, cap_key, raw_key in Hk. unfold row_ticker, row_date.
      now injection Hk as -> ->.
    - intros [r [Hr [Ht Hd]]].
      apply (Permutation_in _ (Permutation_sym (sort_perm group_key_leb _))).
      apply dedup_In, in_flat_map. exists r. split; [exact Hr|].
      unfold group_key_of. rewrite Ht, Hd. now left. }
  split.
  - intros tr d y Htr Hpt. apply in_map_iff in Htr. destruct Htr as [name [<- _]].
    cbn [trace_points trace_name] in *. apply in_map_iff in Hpt.
    destruct Hpt as [g [Hg Hgin]]. apply filter_In in Hgin. destruct Hgin as [Hgin Hname].
    destruct (string_dec (g_ticker g) name) as [Hn|]; [|discriminate].
    unfold groupby_ticker_date in Hgin. apply in_map_iff in Hgin.
    destruct Hgin as [[t d'] [<- Hk]]. cbn [fst snd g_ticker g_date g_stock_price] in *.
    subst t. injection Hg as -> <-.
    apply Hkeyin in Hk. cbn [fst snd] in Hk. destruct Hk as [r [Hr [Ht Hd]]].
    rewrite (Hgroup r name d Hr Ht Hd). cbn [map].
    pose proof (proj1 (Hrows r) Hr) as [Hrt _].
    destruct (Hprice r Hrt) as [p Hp]. rewrite Hp.
    destruct (mean_single p) as [q [Hq Heq]].
    exists r, p, q. tauto.
  - intros r t d Hr Ht Hd Hsel Hmem.
    assert (Hrr : In r rows).
    { apply Hrows. rewrite Ht. simpl. split; [exact Hr|].
      split; now apply in_strings_true. }
    eexists. eexists. split; [|split].
    + apply in_map_iff. exists t. split; [reflexivity|].
      apply dedup_In. apply groupby_ticker_date_tickers. now exists r, d.
    + reflexivity.
    + cbn [trace_points]. apply in_map_iff.
      exists (mk_group t d
                (mean (map row_stock_price
                         (filter (fun r' => if in_dec group_key_eq_dec (t, d) (group_key_of r')
                                            then true else false) rows)))
                (mean (map row_market_cap
                         (filter (fun r' => if in_dec group_key_eq_dec (t, d) (group_key_of r')
                                            then true else false) rows)))).
      split; [reflexivity|]. apply filter_In. split.
      * unfold groupby_ticker_date. apply in_map_iff. exists (t, d).
        split; [reflexivity|]. apply Hkeyin. now exists r.
      * cbn [g_ticker]. destruct (string_dec t t); congruence.
Qed.

Lemma trend_chart_sample :
  exists table w',
    clean_data sample_cache sample_services (initial_world None) = (Ok table, w') /\
    forall out,
      update_dashboard table (Some "Technology") (Some ["AAPL"]) = Ok out ->
      exists traces,
        snd (fst out) = LineFigure "Stock Price Trends" traces /\
        (forall tr d y,
            In tr traces -> In (d, y) (trace_points tr) ->
            exists r p q,
              In r table /\ row_ticker r = Some (trace_name tr) /\ row_date r = Some d /\
              row_stock_price r = Some p /\ y = Some q /\ (q == p)%Q) /\
        (forall r t d,
            In r table -> row_ticker r = Some t -> row_date r = Some d ->
            In t ["AAPL"] ->
            In t ["AAPL"; "MSFT"; "GOOG"; "NVDA"; "AMD"; "ORCL"; "CRM"; "ADBE"; "INTC"; "HPQ"] ->
            exists tr y, In tr traces /\ trace_name tr = t /\ In (d, y) (trace_points tr)).
Proof.
  apply (trend_chart_plots_the_cleaned_prices
           sample_services (initial_world None) sample_cache "Technology").
  - left. reflexivity.
  - discriminate.
Defined.
